(** * HexagonClient: the online client of SSVOpenHexagon

    A shallow embedding of [src/SSVOpenHexagon/Core/HexagonClient.cpp]
    (class [hg::HexagonClient]) and of the declarations of
    [include/SSVOpenHexagon/Core/HexagonClient.hpp].

    - The member variables of the class are the fields of the record
      [Client], under their source names.
    - Everything the class talks to (the SFML socket, the clock, the Steam
      manager, the configuration) is the record [World]: the answers of the
      environment are oracles indexed by the number of interactions made so
      far, and every call on the socket is appended to [sockLog].
    - A member function is a computation of the monad [M]: it threads the
      pair of the client and the world, and either returns or throws (the
      only exception of the file is the [std::bad_optional_access] of
      [std::optional::value]); what was written before a throw stays
      written, as in C++.
    - Logging ([SSVOH_CLOG] and friends) is not modelled; [fail] therefore
      only returns [false]. [SSVOH_ASSERT] is the release build's no-op.
    - [stateLog] is a ghost log: every assignment to [_state] appends the
      assigned value, so that intermediate states of one call are visible. *)

From Stdlib Require Import ZArith List String Bool Lia.
From Equations Require Import Equations.
Import ListNotations.
Local Open Scope Z_scope.
Local Open Scope string_scope.

Set Implicit Arguments.

(** ** Data of the header *)

(** [enum class State : std::uint8_t] *)
Inductive State : Type :=
| Disconnected
| InitError
| Connecting
| ConnectionError
| Connected
| LoggedIn.

Definition State_eqb (a b : State) : bool :=
  match a, b with
  | Disconnected, Disconnected
  | InitError, InitError
  | Connecting, Connecting
  | ConnectionError, ConnectionError
  | Connected, Connected
  | LoggedIn, LoggedIn => true
  | _, _ => false
  end.

(** [sf::Socket::Status] *)
Module Socket.
Inductive Status : Type :=
| Done
| NotReady
| Partial
| Disconnected
| Error.

Definition isDone (s : Status) : bool :=
  match s with Done => true | _ => false end.

(** The two statuses the spec calls fatal: the peer closed the connection,
    or a hard error. *)
Definition fatal (s : Status) : bool :=
  match s with Disconnected | Error => true | _ => false end.
End Socket.

(** [sf::Packet]: a buffer of bytes. *)
Definition Packet : Type := list Byte.byte.

(** Sodium keys are fixed-size byte arrays. *)
Definition SodiumKey : Type := list Byte.byte.

Record SodiumPSKeys : Type := mkPSKeys {
  keyPublic : SodiumKey;
  keySecret : SodiumKey
}.

Record SodiumRTKeys : Type := mkRTKeys {
  keyReceive : SodiumKey;
  keyTransmit : SodiumKey
}.

(** The value of a signed 64-bit integer after an operation whose exact
    result is [z]: the counts of nanoseconds of [std::chrono] are such
    integers, and their difference wraps around. *)
Definition int64_wrap (z : Z) : Z := (z + 2 ^ 63) mod 2 ^ 64 - 2 ^ 63.
Arguments int64_wrap : simpl never.

(** [sf::IpAddress]; [IpNone] is [sf::IpAddress::None]. *)
Inductive IpAddress : Type :=
| IpNone
| IpV4 (addr : Z).

Definition IpAddress_isNone (ip : IpAddress) : bool :=
  match ip with IpNone => true | IpV4 _ => false end.

(** The only exception the client can raise by itself. *)
Inductive Exception : Type :=
| bad_optional_access.

Section HexagonClient.

(** [Database::ProcessedScore] and [replay_file] are declared outside the
    files at hand; the client only moves their values around. *)
Variable ProcessedScore : Type.
Variable replay_file : Type.

(** The events the client queues for the application. *)
Inductive Event : Type :=
| EConnectionSuccess
| EConnectionFailure (error : string)
| EKicked
| ERegistrationSuccess
| ERegistrationFailure (error : string)
| ELoginSuccess
| ELoginFailure (error : string)
| ELogoutSuccess
| ELogoutFailure
| EDeleteAccountSuccess
| EDeleteAccountFailure (error : string)
| EReceivedTopScores (levelValidator : string) (scores : list ProcessedScore)
| EReceivedOwnScore (levelValidator : string) (score : ProcessedScore)
| EReceivedLevelScoresUnsupported (levelValidator : string).

(** Client-to-server messages, as the [send...] members build them. *)
Inductive CTSPacket : Type :=
| CTSPHeartbeat
| CTSPDisconnect
| CTSPPublicKey (key : SodiumKey)
| CTSPRegister (steamId : Z) (name passwordHash : string)
| CTSPLogin (steamId : Z) (name passwordHash : string)
| CTSPLogout (steamId : Z)
| CTSPDeleteAccount (steamId : Z) (passwordHash : string)
| CTSPRequestTopScores (loginToken : Z) (levelValidator : string)
| CTSPReplay (loginToken : Z) (replayFile : replay_file)
| CTSPRequestOwnScore (loginToken : Z) (levelValidator : string)
| CTSPRequestTopScoresAndOwnScore (loginToken : Z) (levelValidator : string)
| CTSPStartedGame (loginToken : Z) (levelValidator : string).

(** [PVServerToClient]: what decoding a packet of the server yields; the
    alternatives are those that [receiveDataFromServer] matches on. *)
Inductive PVServerToClient : Type :=
| PInvalid (error : string)
| PEncryptedMsg (nonce ciphertext : list Byte.byte)
| STCPKick
| STCPPublicKey (key : SodiumKey)
| STCPRegistrationSuccess
| STCPRegistrationFailure (error : string)
| STCPLoginSuccess (loginToken : Z) (loginName : string)
| STCPLoginFailure (error : string)
| STCPLogoutSuccess
| STCPLogoutFailure
| STCPDeleteAccountSuccess
| STCPDeleteAccountFailure (error : string)
| STCPTopScores (levelValidator : string) (scores : list ProcessedScore)
| STCPOwnScore (levelValidator : string) (score : ProcessedScore)
| STCPTopScoresAndOwnScore (levelValidator : string)
    (scores : list ProcessedScore) (ownScore : option ProcessedScore).

(** The functions of [Online/Shared] and [Online/Sodium] that the client
    calls; their code is not part of the files at hand, so they are taken
    as they come. The builders write the packet buffer: they return what
    the buffer holds afterwards. *)
Record Online : Type := mkOnline {
  makeClientToServerPacket : CTSPacket -> Packet;
  makeClientToServerEncryptedPacket : SodiumKey -> CTSPacket -> bool * Packet;
  decodeOuter : Packet -> PVServerToClient;
  decryptEnvelope : SodiumKey -> list Byte.byte -> list Byte.byte -> option Packet;
  decodeInner : Packet -> PVServerToClient;
  calculateClientSessionSodiumRTKeys :
    SodiumPSKeys -> SodiumKey -> option SodiumRTKeys;
  sodiumHash : string -> string
}.

Variable online : Online.

(** Modelled from the spec: [decodeServerToClientPacket] of [Online/Shared]
    is missing. Section 4.3: the outer decode determines whether the payload
    is a plaintext control message or an encrypted envelope; if encrypted,
    decoding requires the current receive key and fails, reported as
    invalid, if the key is absent, the ciphertext is malformed or the
    decryption fails authentication; a frame that cannot be recognized is
    decoded to the invalid variant. *)
Definition decodeServerToClientPacket
    (keyReceive : option SodiumKey) (p : Packet) : PVServerToClient :=
  match decodeOuter online p with
  | PEncryptedMsg nonce ciphertext =>
      match keyReceive with
      | None => PInvalid "cannot decrypt encrypted message without receive key"
      | Some k =>
          match decryptEnvelope online k nonce ciphertext with
          | None => PInvalid "failure decrypting encrypted message"
          | Some inner => decodeInner online inner
          end
      end
  | pv => pv
  end.

(** ** The object and its environment *)

Record Client : Type := mkClient {
  _ticketSteamID : option Z;
  _serverIp : IpAddress;
  _serverPort : Z;
  _socketConnected : bool;
  _packetBuffer : Packet;
  _lastHeartbeatTime : Z;
  _verbose : bool;
  _clientPSKeys : SodiumPSKeys;
  _serverPublicKey : option SodiumKey;
  _clientRTKeys : option SodiumRTKeys;
  _state : State;
  _loginToken : option Z;
  _loginName : option string;
  _events : list Event
}.

(** One call on [_socket]. *)
Inductive SockOp : Type :=
| OpSetBlocking (blocking : bool)
| OpConnect (ip : IpAddress) (port : Z) (status : Socket.Status)
| OpSend (p : Packet) (status : Socket.Status)
| OpReceive (status : Socket.Status) (p : Packet)
| OpDisconnect.

Definition isSend (o : SockOp) : bool :=
  match o with OpSend _ _ => true | _ => false end.

Record World : Type := mkWorld {
  (** answers of the environment, by the number of interactions so far *)
  sock_connect : nat -> Socket.Status;
  sock_send : nat -> Packet -> Socket.Status;
  sock_receive : nat -> Socket.Status * Packet;
  clock_now : nat -> Z;
  steam_got_response : nat -> bool;
  steam_got_ticket : bool;
  steam_ticket_id : option Z;
  Config_getServerIp : IpAddress;
  Config_getServerPort : Z;
  fresh_PSKeys : SodiumPSKeys;
  (** what happened so far *)
  steps : nat;
  sockLog : list SockOp;
  stateLog : list State
}.

Record Sys : Type := mkSys {
  client : Client;
  world : World
}.

(** The packets handed to [_socket.send] so far. *)
Definition sentPackets (s : Sys) : list SockOp :=
  filter isSend (sockLog (world s)).

(** ** Field updates *)

Definition set_ticketSteamID (v : option Z) (c : Client) : Client :=
  mkClient v (_serverIp c) (_serverPort c) (_socketConnected c)
    (_packetBuffer c) (_lastHeartbeatTime c) (_verbose c) (_clientPSKeys c)
    (_serverPublicKey c) (_clientRTKeys c) (_state c) (_loginToken c)
    (_loginName c) (_events c).

Definition set_socketConnected (v : bool) (c : Client) : Client :=
  mkClient (_ticketSteamID c) (_serverIp c) (_serverPort c) v
    (_packetBuffer c) (_lastHeartbeatTime c) (_verbose c) (_clientPSKeys c)
    (_serverPublicKey c) (_clientRTKeys c) (_state c) (_loginToken c)
    (_loginName c) (_events c).

Definition set_packetBuffer (v : Packet) (c : Client) : Client :=
  mkClient (_ticketSteamID c) (_serverIp c) (_serverPort c)
    (_socketConnected c) v (_lastHeartbeatTime c) (_verbose c)
    (_clientPSKeys c) (_serverPublicKey c) (_clientRTKeys c) (_state c)
    (_loginToken c) (_loginName c) (_events c).

Definition set_lastHeartbeatTime (v : Z) (c : Client) : Client :=
  mkClient (_ticketSteamID c) (_serverIp c) (_serverPort c)
    (_socketConnected c) (_packetBuffer c) v (_verbose c) (_clientPSKeys c)
    (_serverPublicKey c) (_clientRTKeys c) (_state c) (_loginToken c)
    (_loginName c) (_events c).

Definition set_serverPublicKey (v : option SodiumKey) (c : Client) : Client :=
  mkClient (_ticketSteamID c) (_serverIp c) (_serverPort c)
    (_socketConnected c) (_packetBuffer c) (_lastHeartbeatTime c) (_verbose c)
    (_clientPSKeys c) v (_clientRTKeys c) (_state c) (_loginToken c)
    (_loginName c) (_events c).

Definition set_clientRTKeys (v : option SodiumRTKeys) (c : Client) : Client :=
  mkClient (_ticketSteamID c) (_serverIp c) (_serverPort c)
    (_socketConnected c) (_packetBuffer c) (_lastHeartbeatTime c) (_verbose c)
    (_clientPSKeys c) (_serverPublicKey c) v (_state c) (_loginToken c)
    (_loginName c) (_events c).

Definition set_state (v : State) (c : Client) : Client :=
  mkClient (_ticketSteamID c) (_serverIp c) (_serverPort c)
    (_socketConnected c) (_packetBuffer c) (_lastHeartbeatTime c) (_verbose c)
    (_clientPSKeys c) (_serverPublicKey c) (_clientRTKeys c) v
    (_loginToken c) (_loginName c) (_events c).

Definition set_loginToken (v : option Z) (c : Client) : Client :=
  mkClient (_ticketSteamID c) (_serverIp c) (_serverPort c)
    (_socketConnected c) (_packetBuffer c) (_lastHeartbeatTime c) (_verbose c)
    (_clientPSKeys c) (_serverPublicKey c) (_clientRTKeys c) (_state c) v
    (_loginName c) (_events c).

Definition set_loginName (v : option string) (c : Client) : Client :=
  mkClient (_ticketSteamID c) (_serverIp c) (_serverPort c)
    (_socketConnected c) (_packetBuffer c) (_lastHeartbeatTime c) (_verbose c)
    (_clientPSKeys c) (_serverPublicKey c) (_clientRTKeys c) (_state c)
    (_loginToken c) v (_events c).

Definition set_events (v : list Event) (c : Client) : Client :=
  mkClient (_ticketSteamID c) (_serverIp c) (_serverPort c)
    (_socketConnected c) (_packetBuffer c) (_lastHeartbeatTime c) (_verbose c)
    (_clientPSKeys c) (_serverPublicKey c) (_clientRTKeys c) (_state c)
    (_loginToken c) (_loginName c) v.

(** The world after one more interaction, with [ops] appended to the
    socket log. *)
Definition interact (ops : list SockOp) (w : World) : World :=
  mkWorld (sock_connect w) (sock_send w) (sock_receive w) (clock_now w)
    (steam_got_response w) (steam_got_ticket w) (steam_ticket_id w)
    (Config_getServerIp w) (Config_getServerPort w) (fresh_PSKeys w)
    (S (steps w)) (sockLog w ++ ops) (stateLog w).

Definition note_state (st : State) (w : World) : World :=
  mkWorld (sock_connect w) (sock_send w) (sock_receive w) (clock_now w)
    (steam_got_response w) (steam_got_ticket w) (steam_ticket_id w)
    (Config_getServerIp w) (Config_getServerPort w) (fresh_PSKeys w)
    (steps w) (sockLog w) (stateLog w ++ [st]).

(** ** The monad of member functions *)

Inductive Outcome (A : Type) : Type :=
| Returned (a : A)
| Thrown (e : Exception).
Arguments Thrown {A} e.

Definition M (A : Type) : Type := Sys -> Outcome A * Sys.

Definition ret {A} (a : A) : M A := fun s => (Returned a, s).

Definition throw {A} (e : Exception) : M A := fun s => (Thrown e, s).

Definition bind {A B} (m : M A) (k : A -> M B) : M B :=
  fun s =>
    match m s with
    | (Returned a, s') => k a s'
    | (Thrown e, s') => (Thrown e, s')
    end.

(** [try { m } catch(...) { }] *)
Definition try_catch_all (m : M unit) : M unit :=
  fun s =>
    match m s with
    | (Returned _, s') => (Returned tt, s')
    | (Thrown _, s') => (Returned tt, s')
    end.

Notation "x <- m ;; k" := (bind m (fun x => k))
  (at level 61, m at next level, right associativity).
Notation "m ;; k" := (bind m (fun _ => k))
  (at level 61, right associativity).

Definition get_client : M Client := fun s => (Returned (client s), s).

Definition modify_client (f : Client -> Client) : M unit :=
  fun s => (Returned tt, mkSys (f (client s)) (world s)).

Definition modify_world (f : World -> World) : M unit :=
  fun s => (Returned tt, mkSys (client s) (f (world s))).

Definition exec {A} (m : M A) (s : Sys) : Sys := snd (m s).

Definition result {A} (m : M A) (s : Sys) : Outcome A := fst (m s).

(** [_state = st;] *)
Definition assign_state (st : State) : M unit :=
  modify_client (set_state st) ;;
  modify_world (note_state st).

(** [std::optional::value()] *)
Definition value {A} (o : option A) : M A :=
  match o with
  | Some a => ret a
  | None => throw bad_optional_access
  end.

(** ** The environment's operations *)

(** An operation of the environment returns; it never throws. *)
Definition env {A} (f : Sys -> A * Sys) : M A :=
  fun s => let '(a, s') := f s in (Returned a, s').

Definition socket_setBlocking (b : bool) : M unit :=
  modify_world (interact [OpSetBlocking b]).

Definition do_connect (ip : IpAddress) (port : Z) (s : Sys)
    : Socket.Status * Sys :=
  let w := world s in
  let st := sock_connect w (steps w) in
  (st, mkSys (client s) (interact [OpConnect ip port st] w)).

(** [_socket.send(_packetBuffer)] *)
Definition do_send (s : Sys) : Socket.Status * Sys :=
  let w := world s in
  let p := _packetBuffer (client s) in
  let st := sock_send w (steps w) p in
  (st, mkSys (client s) (interact [OpSend p st] w)).

(** [_socket.receive(_packetBuffer)]: the buffer holds afterwards what the
    socket left in it. *)
Definition do_receive (s : Sys) : Socket.Status * Sys :=
  let w := world s in
  let st := fst (sock_receive w (steps w)) in
  let p := snd (sock_receive w (steps w)) in
  (st, mkSys (set_packetBuffer p (client s)) (interact [OpReceive st p] w)).

Definition socket_connect (ip : IpAddress) (port : Z) : M Socket.Status :=
  env (do_connect ip port).

Definition socket_disconnect : M unit :=
  modify_world (interact [OpDisconnect]).

(** [Clock::now()]: the count of nanoseconds of the time point. *)
Definition Clock_now : M Z :=
  fun s =>
    let w := world s in
    (Returned (clock_now w (steps w)), mkSys (client s) (interact [] w)).

(** [_steamManager.run_callbacks()], followed by the sleep. *)
Definition do_run_callbacks (s : Sys) : Sys :=
  mkSys (client s) (interact [] (world s)).

(** [_steamManager.got_encrypted_app_ticket_response()] *)
Definition got_encrypted_app_ticket_response (s : Sys) : bool :=
  steam_got_response (world s) (steps (world s)).

(** ** Private members *)

(** [fail(xs...)]: logs, returns [false]. *)
Definition fail : M bool := ret false.

(** [_events.push_back(e)] *)
Definition addEvent (e : Event) : M unit :=
  modify_client (fun c => set_events (_events c ++ [e]) c).

(** [_socketConnected && _state == s] *)
Definition connectedAndInState (st : State) (c : Client) : bool :=
  _socketConnected c && State_eqb (_state c) st.

(** How many more times a bounded retry can go round: the measure of the
    two recursions and of the loop below. *)
Definition attemptsLeft (bound tries : Z) : nat := Z.to_nat (bound - tries).
Arguments attemptsLeft : simpl never.

(** The [while] loop of [initializeTicketSteamID], entered with the current
    value of [tries]: [true] when the response came, [false] when the loop
    gave up. *)
Equations? waitTicketResponse (tries : Z) (s : Sys) : bool * Sys
    by wf (attemptsLeft 16 tries) lt :=
  waitTicketResponse tries s with got_encrypted_app_ticket_response s => {
    | true := (true, s)
    | false with Z_gt_dec (tries + 1) 15 => {
        | left _ := (false, do_run_callbacks s)
        | right _ := waitTicketResponse (tries + 1) (do_run_callbacks s) } }.
Proof. unfold attemptsLeft; lia. Qed.

Definition initializeTicketSteamID : M bool :=
  responded <- env (waitTicketResponse 0) ;;
  if negb responded then fail
  else
    w <- (fun s => (Returned (world s), s)) ;;
    if negb (steam_got_ticket w) then fail
    else
      match steam_ticket_id w with
      | None => fail
      | Some ticketSteamId =>
          modify_client (set_ticketSteamID (Some ticketSteamId)) ;;
          ret true
      end.

Definition initializeTcpSocket : M bool :=
  c <- get_client ;;
  if _socketConnected c then fail
  else
    socket_setBlocking true ;;
    status <- socket_connect (_serverIp c) (_serverPort c) ;;
    if negb (Socket.isDone status) then
      modify_client (set_socketConnected false) ;;
      ret false
    else
      socket_setBlocking false ;;
      modify_client (set_socketConnected true) ;;
      ret true.

(** [sendPacketRecursive(tries, _packetBuffer)]. The packet is always the
    member [_packetBuffer]. *)
Equations? sendPacketRecursive (tries : Z) (s : Sys) : Outcome bool * Sys
    by wf (attemptsLeft 6 tries) lt :=
  sendPacketRecursive tries s with Z_gt_dec tries 5 => {
    | left _ := fail s
    | right _ with do_send s => {
        | (Socket.NotReady, s1) := fail s1
        | (Socket.Error, s1) := fail s1
        | (Socket.Disconnected, s1) := fail s1
        | (Socket.Done, s1) := ret true s1
        | (Socket.Partial, s1) := sendPacketRecursive (tries + 1) s1 } }.
Proof. unfold attemptsLeft; lia. Qed.

Definition sendPacket : M bool := sendPacketRecursive 0.

Definition sendUnencrypted (data : CTSPacket) : M bool :=
  c <- get_client ;;
  if negb (_socketConnected c) then fail
  else
    modify_client (set_packetBuffer (makeClientToServerPacket online data)) ;;
    sendPacket.

Definition sendEncrypted (data : CTSPacket) : M bool :=
  c <- get_client ;;
  if negb (_socketConnected c) then fail
  else
    match _clientRTKeys c with
    | None => fail
    | Some rt =>
        let built :=
          makeClientToServerEncryptedPacket online (keyTransmit rt) data in
        modify_client (set_packetBuffer (snd built)) ;;
        if negb (fst built) then fail
        else sendPacket
    end.

Definition sendHeartbeat : M bool :=
  ok <- sendUnencrypted CTSPHeartbeat ;;
  if negb ok then fail
  else
    now <- Clock_now ;;
    modify_client (set_lastHeartbeatTime now) ;;
    ret true.

Definition sendDisconnect : M bool := sendUnencrypted CTSPDisconnect.

Definition sendPublicKey : M bool :=
  c <- get_client ;;
  sendUnencrypted (CTSPPublicKey (keyPublic (_clientPSKeys c))).

Definition sendRegister (steamId : Z) (name passwordHash : string) : M bool :=
  sendEncrypted (CTSPRegister steamId name passwordHash).

Definition sendLogin (steamId : Z) (name passwordHash : string) : M bool :=
  sendEncrypted (CTSPLogin steamId name passwordHash).

Definition sendLogout (steamId : Z) : M bool :=
  sendEncrypted (CTSPLogout steamId).

Definition sendDeleteAccount (steamId : Z) (passwordHash : string) : M bool :=
  sendEncrypted (CTSPDeleteAccount steamId passwordHash).

Definition sendRequestTopScores (loginToken : Z) (levelValidator : string)
    : M bool :=
  sendEncrypted (CTSPRequestTopScores loginToken levelValidator).

Definition sendReplay (loginToken : Z) (replayFile : replay_file) : M bool :=
  sendEncrypted (CTSPReplay loginToken replayFile).

Definition sendRequestOwnScore (loginToken : Z) (levelValidator : string)
    : M bool :=
  sendEncrypted (CTSPRequestOwnScore loginToken levelValidator).

Definition sendRequestTopScoresAndOwnScore
    (loginToken : Z) (levelValidator : string) : M bool :=
  sendEncrypted (CTSPRequestTopScoresAndOwnScore loginToken levelValidator).

Definition sendStartedGame (loginToken : Z) (levelValidator : string)
    : M bool :=
  sendEncrypted (CTSPStartedGame loginToken levelValidator).

(** ** [connect] and [disconnect] *)

(** The lambda [failEvent] of [connect]. *)
Definition failEvent (reason : string) : M bool :=
  let errorStr := "Failure connecting, error " ++ reason in
  addEvent (EConnectionFailure errorStr) ;;
  assign_state ConnectionError ;;
  ret false.

Definition connect : M bool :=
  assign_state Connecting ;;
  c <- get_client ;;
  if _socketConnected c then fail
  else
    ok <- initializeTcpSocket ;;
    if negb ok then failEvent "initializing TCP socket"
    else
      ok <- sendHeartbeat ;;
      if negb ok then failEvent "sending first heartbeat"
      else
        ok <- sendPublicKey ;;
        if negb ok then failEvent "sending public key"
        else
          addEvent EConnectionSuccess ;;
          assign_state Connected ;;
          ret true.

Definition disconnect : M unit :=
  socket_setBlocking true ;;
  c <- get_client ;;
  match State_eqb (_state c) LoggedIn, _ticketSteamID c with
  | true, Some ticketSteamID => sendLogout ticketSteamID ;; ret tt
  | _, _ => ret tt
  end ;;
  c <- get_client ;;
  (if State_eqb (_state c) Connected || State_eqb (_state c) LoggedIn
   then sendDisconnect ;; ret tt
   else ret tt) ;;
  socket_disconnect ;;
  modify_client (set_socketConnected false) ;;
  assign_state Disconnected.

(** ** Receiving *)

(** [recvPacketRecursive(tries, _packetBuffer)] *)
Equations? recvPacketRecursive (tries : Z) (s : Sys) : Outcome bool * Sys
    by wf (attemptsLeft 6 tries) lt :=
  recvPacketRecursive tries s with Z_gt_dec tries 5 => {
    | left _ := fail s
    | right _ with do_receive s => {
        | (Socket.NotReady, s1) := fail s1
        | (Socket.Error, s1) := (disconnect ;; fail) s1
        | (Socket.Disconnected, s1) := (disconnect ;; fail) s1
        | (Socket.Done, s1) := ret true s1
        | (Socket.Partial, s1) := recvPacketRecursive (tries + 1) s1 } }.
Proof. unfold attemptsLeft; lia. Qed.

Definition recvPacket : M bool := recvPacketRecursive 0.

(** 45 seconds, in nanoseconds. *)
Definition heatbeatInterval : Z := 45 * 1000000000.

Definition sendHeartbeatIfNecessary : M bool :=
  c <- get_client ;;
  if negb (_socketConnected c) then ret true
  else
    now <- Clock_now ;;
    if int64_wrap (now - _lastHeartbeatTime c) >? heatbeatInterval then
      ok <- sendHeartbeat ;;
      if negb ok then disconnect ;; fail
      else ret true
    else ret true.

(** The visitor that [receiveDataFromServer] applies to the decoded
    packet. *)
Definition onServerPacket (pv : PVServerToClient) : M bool :=
  match pv with
  | PInvalid _ => fail
  | PEncryptedMsg _ _ => fail
  | STCPKick =>
      addEvent EKicked ;;
      disconnect ;;
      ret true
  | STCPPublicKey key =>
      modify_client (set_serverPublicKey (Some key)) ;;
      c <- get_client ;;
      modify_client
        (set_clientRTKeys
           (calculateClientSessionSodiumRTKeys online (_clientPSKeys c) key)) ;;
      c <- get_client ;;
      match _clientRTKeys c with
      | None => disconnect ;; fail
      | Some _ => ret true
      end
  | STCPRegistrationSuccess =>
      addEvent ERegistrationSuccess ;; ret true
  | STCPRegistrationFailure error =>
      addEvent (ERegistrationFailure error) ;; ret true
  | STCPLoginSuccess loginToken loginName =>
      modify_client (set_loginToken (Some loginToken)) ;;
      modify_client (set_loginName (Some loginName)) ;;
      assign_state LoggedIn ;;
      addEvent ELoginSuccess ;;
      ret true
  | STCPLoginFailure error =>
      addEvent (ELoginFailure error) ;; ret true
  | STCPLogoutSuccess =>
      addEvent ELogoutSuccess ;; ret true
  | STCPLogoutFailure =>
      addEvent ELogoutFailure ;; ret true
  | STCPDeleteAccountSuccess =>
      addEvent EDeleteAccountSuccess ;; ret true
  | STCPDeleteAccountFailure error =>
      addEvent (EDeleteAccountFailure error) ;; ret true
  | STCPTopScores levelValidator scores =>
      addEvent (EReceivedTopScores levelValidator scores) ;; ret true
  | STCPOwnScore levelValidator score =>
      addEvent (EReceivedOwnScore levelValidator score) ;; ret true
  | STCPTopScoresAndOwnScore levelValidator scores ownScore =>
      addEvent (EReceivedTopScores levelValidator scores) ;;
      match ownScore with
      | Some score => addEvent (EReceivedOwnScore levelValidator score)
      | None => ret tt
      end ;;
      ret true
  end.

(** [receiveDataFromServer(_packetBuffer)] *)
Definition receiveDataFromServer : M bool :=
  c <- get_client ;;
  if negb (_socketConnected c) then fail
  else
    ok <- recvPacket ;;
    if negb ok then fail
    else
      c <- get_client ;;
      onServerPacket
        (decodeServerToClientPacket
           (option_map keyReceive (_clientRTKeys c)) (_packetBuffer c)).

Definition update : M unit :=
  c <- get_client ;;
  if negb (_socketConnected c) then ret tt
  else
    try_catch_all
      (sendHeartbeatIfNecessary ;;
       receiveDataFromServer ;;
       ret tt).

(** ** Requests *)

(** [hashPwd]: the secret salt is not part of the files at hand, so the
    [#else] branch applies. *)
Definition hashPwd (password : string) : string :=
  let salt := "salt" in
  sodiumHash online (salt ++ password).

(** [name.empty() || name.size() > 32 || password.empty()] *)
Definition badCredentials (name password : string) : bool :=
  (String.length name =? 0)%nat
  || (32 <? String.length name)%nat
  || (String.length password =? 0)%nat.

Definition tryRegister (name password : string) : M bool :=
  c <- get_client ;;
  if negb (connectedAndInState Connected c) then fail
  else if badCredentials name password then
    addEvent (ERegistrationFailure "Name or password fields too long or empty") ;;
    ret false
  else
    steamId <- value (_ticketSteamID c) ;;
    sendRegister steamId name (hashPwd password).

Definition tryLogin (name password : string) : M bool :=
  c <- get_client ;;
  if negb (connectedAndInState Connected c) then fail
  else if badCredentials name password then
    addEvent (ELoginFailure "Name or password fields too long or empty") ;;
    ret false
  else
    steamId <- value (_ticketSteamID c) ;;
    sendLogin steamId name (hashPwd password).

Definition tryLogoutFromServer : M bool :=
  c <- get_client ;;
  if negb (connectedAndInState LoggedIn c) then fail
  else
    assign_state Connected ;;
    modify_client (set_loginToken None) ;;
    modify_client (set_loginName None) ;;
    steamId <- value (_ticketSteamID c) ;;
    sendLogout steamId.

Definition tryDeleteAccount (password : string) : M bool :=
  c <- get_client ;;
  if negb (connectedAndInState Connected c) then fail
  else
    steamId <- value (_ticketSteamID c) ;;
    sendDeleteAccount steamId (hashPwd password).

Definition tryRequestTopScores (levelValidator : string) : M bool :=
  c <- get_client ;;
  if negb (connectedAndInState LoggedIn c) then fail
  else
    loginToken <- value (_loginToken c) ;;
    sendRequestTopScores loginToken levelValidator.

Definition trySendReplay (replayFile : replay_file) : M bool :=
  c <- get_client ;;
  if negb (connectedAndInState LoggedIn c) then fail
  else
    loginToken <- value (_loginToken c) ;;
    sendReplay loginToken replayFile.

Definition tryRequestOwnScore (levelValidator : string) : M bool :=
  c <- get_client ;;
  if negb (connectedAndInState LoggedIn c) then fail
  else
    loginToken <- value (_loginToken c) ;;
    sendRequestOwnScore loginToken levelValidator.

Definition tryRequestTopScoresAndOwnScore (levelValidator : string) : M bool :=
  c <- get_client ;;
  if negb (connectedAndInState LoggedIn c) then fail
  else
    loginToken <- value (_loginToken c) ;;
    sendRequestTopScoresAndOwnScore loginToken levelValidator.

Definition trySendStartedGame (levelValidator : string) : M bool :=
  c <- get_client ;;
  if negb (connectedAndInState LoggedIn c) then fail
  else
    loginToken <- value (_loginToken c) ;;
    sendStartedGame loginToken levelValidator.

Definition getState : M State :=
  c <- get_client ;; ret (_state c).

Definition getLoginName : M (option string) :=
  c <- get_client ;; ret (_loginName c).

Definition pollEvent : M (option Event) :=
  c <- get_client ;;
  match _events c with
  | [] => ret None
  | e :: rest =>
      modify_client (set_events rest) ;;
      ret (Some e)
  end.

(** ** Construction and destruction *)

(** The member initializers of the constructor. *)
Definition initialClient (w : World) : Client :=
  mkClient None (Config_getServerIp w) (Config_getServerPort w) false []
    0 true (fresh_PSKeys w) None None Disconnected None None [].

(** The body of the constructor. *)
Definition HexagonClient_body : M unit :=
  c <- get_client ;;
  if IpAddress_isNone (_serverIp c) then assign_state InitError
  else
    ok <- initializeTicketSteamID ;;
    if negb ok then assign_state InitError
    else connect ;; ret tt.

(** [HexagonClient::HexagonClient(steamManager)]: the client in the world
    [w], once constructed. *)
Definition HexagonClient_new (w : World) : Sys :=
  exec HexagonClient_body (mkSys (initialClient w) (note_state Disconnected w)).

(** [HexagonClient::~HexagonClient()] *)
Definition HexagonClient_delete : M unit := disconnect.

(** ** The public interface, as the application drives it *)

Inductive ApiCall : Type :=
| Call_connect
| Call_disconnect
| Call_update
| Call_tryRegister (name password : string)
| Call_tryLogin (name password : string)
| Call_tryLogoutFromServer
| Call_tryDeleteAccount (password : string)
| Call_tryRequestTopScores (levelValidator : string)
| Call_trySendReplay (replayFile : replay_file)
| Call_tryRequestOwnScore (levelValidator : string)
| Call_tryRequestTopScoresAndOwnScore (levelValidator : string)
| Call_trySendStartedGame (levelValidator : string)
| Call_getState
| Call_getLoginName
| Call_pollEvent.

Definition call (a : ApiCall) : M unit :=
  match a with
  | Call_connect => connect ;; ret tt
  | Call_disconnect => disconnect
  | Call_update => update
  | Call_tryRegister name password => tryRegister name password ;; ret tt
  | Call_tryLogin name password => tryLogin name password ;; ret tt
  | Call_tryLogoutFromServer => tryLogoutFromServer ;; ret tt
  | Call_tryDeleteAccount password => tryDeleteAccount password ;; ret tt
  | Call_tryRequestTopScores lv => tryRequestTopScores lv ;; ret tt
  | Call_trySendReplay rf => trySendReplay rf ;; ret tt
  | Call_tryRequestOwnScore lv => tryRequestOwnScore lv ;; ret tt
  | Call_tryRequestTopScoresAndOwnScore lv =>
      tryRequestTopScoresAndOwnScore lv ;; ret tt
  | Call_trySendStartedGame lv => trySendStartedGame lv ;; ret tt
  | Call_getState => getState ;; ret tt
  | Call_getLoginName => getLoginName ;; ret tt
  | Call_pollEvent => pollEvent ;; ret tt
  end.

(** A sequence of calls; an exception that escapes a call is the
    application's to catch, and the client stays as the call left it. *)
Fixpoint calls (l : list ApiCall) (s : Sys) : Sys :=
  match l with
  | [] => s
  | a :: l' => calls l' (exec (call a) s)
  end.

Definition isConnect (a : ApiCall) : bool :=
  match a with
  | Call_connect => true
  | _ => false
  end.

(** ** Frames *)

(** What sending leaves alone: every member but the packet buffer and the
    time of the last heartbeat, and the log of states. *)
Record sendFrame (s s' : Sys) : Prop := mkSendFrame {
  frame_ticketSteamID :
    _ticketSteamID (client s') = _ticketSteamID (client s);
  frame_socketConnected :
    _socketConnected (client s') = _socketConnected (client s);
  frame_clientPSKeys : _clientPSKeys (client s') = _clientPSKeys (client s);
  frame_serverPublicKey :
    _serverPublicKey (client s') = _serverPublicKey (client s);
  frame_clientRTKeys : _clientRTKeys (client s') = _clientRTKeys (client s);
  frame_state : _state (client s') = _state (client s);
  frame_loginToken : _loginToken (client s') = _loginToken (client s);
  frame_loginName : _loginName (client s') = _loginName (client s);
  frame_events : _events (client s') = _events (client s);
  frame_stateLog : stateLog (world s') = stateLog (world s)
}.

(** The socket operations [s'] has on top of those of [s]. *)
Definition sockOpsSince (s s' : Sys) (ops : list SockOp) : Prop :=
  sockLog (world s') = (sockLog (world s) ++ ops)%list.

(** A receive, or a send, that ended in a fatal status. *)
Definition isFatalReceive (o : SockOp) : bool :=
  match o with OpReceive st _ => Socket.fatal st | _ => false end.

Definition isFatalSend (o : SockOp) : bool :=
  match o with OpSend _ st => Socket.fatal st | _ => false end.

(** What [disconnect] leaves alone. *)
Record disconnectFrame (s s' : Sys) : Prop := mkDisconnectFrame {
  dframe_ticketSteamID :
    _ticketSteamID (client s') = _ticketSteamID (client s);
  dframe_clientPSKeys : _clientPSKeys (client s') = _clientPSKeys (client s);
  dframe_serverPublicKey :
    _serverPublicKey (client s') = _serverPublicKey (client s);
  dframe_clientRTKeys : _clientRTKeys (client s') = _clientRTKeys (client s);
  dframe_loginToken : _loginToken (client s') = _loginToken (client s);
  dframe_loginName : _loginName (client s') = _loginName (client s);
  dframe_events : _events (client s') = _events (client s)
}.

(** A client that is not on the network: the socket is not connected and
    the state is InitError or Disconnected. *)
Definition idle (s : Sys) : Prop :=
  _socketConnected (client s) = false
  /\ (_state (client s) = InitError \/ _state (client s) = Disconnected).

(** What every sending member guarantees: it returns, within the frame,
    and all it does to the socket is send. *)
Definition sends {A} (m : M A) (s : Sys) (a : A) (s' : Sys) : Prop :=
  m s = (Returned a, s')
  /\ sendFrame s s'
  /\ exists ops, sockOpsSince s s' ops /\ forallb isSend ops = true.

(** ** The caller in [HexagonGame] *)

(** The submission of the replay in [HexagonGame::death]
    ([src/SSVOpenHexagon/Core/HexagonGame.cpp]), for a game that has a
    client ([hexagonClient != nullptr]): [unscored] is
    [levelData->unscored], [official] is [Config::getOfficial()], and
    [&&] evaluates from the left. *)
Definition death_sendReplay (unscored official : bool) (rf : replay_file)
    : M unit :=
  if negb unscored then
    st <- getState ;;
    if State_eqb st LoggedIn && official then
      trySendReplay rf ;; ret tt
    else ret tt
  else ret tt.

(** ** Invariants *)

(** A client is consistent when a state that says it is on the network
    comes with a connected socket, and the state LoggedIn with a login
    session: what the assertions on [_loginToken] in the requests expect. *)
Definition consistent (c : Client) : Prop :=
  (_state c = Connected \/ _state c = LoggedIn -> _socketConnected c = true)
  /\ (_state c = LoggedIn -> _loginToken c <> None /\ _loginName c <> None).

(** What every public member but [pollEvent] keeps: the Steam ID and the
    key pair of the client, the events already queued, which only get
    successors, and consistency. *)
Record keeps (s s' : Sys) : Prop := mkKeeps {
  keeps_ticketSteamID :
    _ticketSteamID (client s') = _ticketSteamID (client s);
  keeps_clientPSKeys : _clientPSKeys (client s') = _clientPSKeys (client s);
  keeps_events :
    exists new, _events (client s') = (_events (client s) ++ new)%list;
  keeps_consistent : consistent (client s) -> consistent (client s')
}.

Definition isReceive (o : SockOp) : bool :=
  match o with OpReceive _ _ => true | _ => false end.

Definition isPollEvent (a : ApiCall) : bool :=
  match a with
  | Call_pollEvent => true
  | _ => false
  end.

(** The calls that only ask the server for something. *)
Definition isRequest (a : ApiCall) : bool :=
  match a with
  | Call_tryRegister _ _ | Call_tryLogin _ _ | Call_tryLogoutFromServer
  | Call_tryDeleteAccount _ | Call_tryRequestTopScores _
  | Call_trySendReplay _ | Call_tryRequestOwnScore _
  | Call_tryRequestTopScoresAndOwnScore _ | Call_trySendStartedGame _ => true
  | _ => false
  end.

(** [s'] comes after [s]: what is kept is kept, and the log of the socket
    has only grown. *)
Definition advances (s s' : Sys) : Prop :=
  keeps s s' /\ exists ops, sockOpsSince s s' ops.

End HexagonClient.

Arguments Returned {A} a.
Arguments Thrown {A} e.
Arguments fail {ProcessedScore} _.
Arguments get_client {ProcessedScore} _.
Arguments sendPacket {ProcessedScore} _.
Arguments initializeTcpSocket {ProcessedScore} _.
Arguments initializeTicketSteamID {ProcessedScore} _.
Arguments getState {ProcessedScore} _.
Arguments getLoginName {ProcessedScore} _.
Arguments pollEvent {ProcessedScore} _.
Arguments initialClient {ProcessedScore} w.
Arguments isConnect {replay_file} a.

Notation "x <- m ;; k" := (bind m (fun x => k))
  (at level 61, m at next level, right associativity).
Notation "m ;; k" := (bind m (fun _ => k))
  (at level 61, right associativity).

Arguments EConnectionSuccess {ProcessedScore}.
Arguments EConnectionFailure {ProcessedScore} error.
Arguments EKicked {ProcessedScore}.
Arguments ERegistrationSuccess {ProcessedScore}.
Arguments ERegistrationFailure {ProcessedScore} error.
Arguments ELoginSuccess {ProcessedScore}.
Arguments ELoginFailure {ProcessedScore} error.
Arguments ELogoutSuccess {ProcessedScore}.
Arguments ELogoutFailure {ProcessedScore}.
Arguments EDeleteAccountSuccess {ProcessedScore}.
Arguments EDeleteAccountFailure {ProcessedScore} error.
Arguments EReceivedLevelScoresUnsupported {ProcessedScore} levelValidator.
Arguments CTSPHeartbeat {replay_file}.
Arguments CTSPDisconnect {replay_file}.
Arguments CTSPPublicKey {replay_file} key.
Arguments CTSPRegister {replay_file} steamId name passwordHash.
Arguments CTSPLogin {replay_file} steamId name passwordHash.
Arguments CTSPLogout {replay_file} steamId.
Arguments CTSPDeleteAccount {replay_file} steamId passwordHash.
Arguments CTSPRequestTopScores {replay_file} loginToken levelValidator.
Arguments CTSPRequestOwnScore {replay_file} loginToken levelValidator.
Arguments CTSPRequestTopScoresAndOwnScore {replay_file} loginToken levelValidator.
Arguments CTSPStartedGame {replay_file} loginToken levelValidator.
Arguments PInvalid {ProcessedScore} error.
Arguments PEncryptedMsg {ProcessedScore} nonce ciphertext.
Arguments STCPKick {ProcessedScore}.
Arguments STCPPublicKey {ProcessedScore} key.
Arguments STCPRegistrationSuccess {ProcessedScore}.
Arguments STCPRegistrationFailure {ProcessedScore} error.
Arguments STCPLoginSuccess {ProcessedScore} loginToken loginName.
Arguments STCPLoginFailure {ProcessedScore} error.
Arguments STCPLogoutSuccess {ProcessedScore}.
Arguments STCPLogoutFailure {ProcessedScore}.
Arguments STCPDeleteAccountSuccess {ProcessedScore}.
Arguments STCPDeleteAccountFailure {ProcessedScore} error.
Arguments Call_connect {replay_file}.
Arguments Call_disconnect {replay_file}.
Arguments Call_update {replay_file}.
Arguments Call_tryRegister {replay_file} name password.
Arguments Call_tryLogin {replay_file} name password.
Arguments Call_tryLogoutFromServer {replay_file}.
Arguments Call_tryDeleteAccount {replay_file} password.
Arguments Call_tryRequestTopScores {replay_file} levelValidator.
Arguments Call_tryRequestOwnScore {replay_file} levelValidator.
Arguments Call_tryRequestTopScoresAndOwnScore {replay_file} levelValidator.
Arguments Call_trySendStartedGame {replay_file} levelValidator.
Arguments Call_getState {replay_file}.
Arguments Call_getLoginName {replay_file}.
Arguments Call_pollEvent {replay_file}.

Arguments isPollEvent {replay_file} a.
Arguments isRequest {replay_file} a.

(** ** A small instance, to run the model on *)

Module Sample.

(** A one-byte wire format: enough to tell the messages apart. *)
Definition tagOf (m : CTSPacket unit) : Byte.byte :=
  match m with
  | CTSPHeartbeat => Byte.x00
  | CTSPDisconnect => Byte.x01
  | CTSPPublicKey _ => Byte.x02
  | CTSPRegister _ _ _ => Byte.x03
  | CTSPLogin _ _ _ => Byte.x04
  | CTSPLogout _ => Byte.x05
  | CTSPDeleteAccount _ _ => Byte.x06
  | CTSPRequestTopScores _ _ => Byte.x07
  | CTSPReplay _ _ => Byte.x08
  | CTSPRequestOwnScore _ _ => Byte.x09
  | CTSPRequestTopScoresAndOwnScore _ _ => Byte.x0a
  | CTSPStartedGame _ _ => Byte.x0b
  end.

Definition serverKey : SodiumKey := [Byte.x2a].

(** Server packets: [x10] is the public key, [x11] a login success, [x12]
    a kick, [xee] an encrypted envelope; the rest is invalid. *)
Definition decode (p : Packet) : PVServerToClient unit :=
  match p with
  | [Byte.x10] => STCPPublicKey serverKey
  | [Byte.x11] => STCPLoginSuccess 42 "bob"
  | [Byte.x12] => STCPKick
  | Byte.xee :: ct => PEncryptedMsg [] ct
  | _ => PInvalid "unknown packet"
  end.

Definition online : Online unit unit :=
  mkOnline
    (fun m => [tagOf m])
    (fun k m => (true, Byte.xee :: tagOf m :: k))
    decode
    (fun k nonce ct => Some ct)
    decode
    (fun ps k => Some (mkRTKeys k (keyPublic ps)))
    (fun pwd => pwd).

(** A world whose socket does everything at once, whose server has
    nothing to say, and whose Steam ticket is 7. *)
Definition world_ok : World :=
  mkWorld (fun _ => Socket.Done) (fun _ _ => Socket.Done)
    (fun _ => (Socket.NotReady, [])) (fun _ => 0)
    (fun _ => true) true (Some 7)
    (IpV4 2130706433) 50505 (mkPSKeys [Byte.x01] [Byte.x02]) 0 [] [].

(** The same world, but Steam never answers. *)
Definition world_no_ticket : World :=
  mkWorld (fun _ => Socket.Done) (fun _ _ => Socket.Done)
    (fun _ => (Socket.NotReady, [])) (fun _ => 0)
    (fun _ => false) true (Some 7)
    (IpV4 2130706433) 50505 (mkPSKeys [Byte.x01] [Byte.x02]) 0 [] [].

(** A world whose server sends its public key and then a login success,
    and whose socket fails every send from interaction [cut] on. *)
Definition world_login (cut : nat) : World :=
  mkWorld (fun _ => Socket.Done)
    (fun n _ => if (n <? cut)%nat then Socket.Done else Socket.Error)
    (fun n => if (n <? 8)%nat then (Socket.Done, [Byte.x10])
              else (Socket.Done, [Byte.x11]))
    (fun _ => 0)
    (fun _ => true) true (Some 7)
    (IpV4 2130706433) 50505 (mkPSKeys [Byte.x01] [Byte.x02]) 0 [] [].

(** A client that is connected, with its session keys. *)
Definition connected : Sys unit :=
  calls online [Call_update] (HexagonClient_new online (world_login 1000)).

(** A client that is logged in. *)
Definition loggedIn : Sys unit :=
  calls online [Call_update; Call_update]
    (HexagonClient_new online (world_login 1000)).

(** A client that is logged in, on a socket that has just died. *)
Definition loggedInDead : Sys unit :=
  calls online [Call_update; Call_update]
    (HexagonClient_new online (world_login 10)).

(** A world whose server sends an encrypted envelope before any key. *)
Definition world_envelope : World :=
  mkWorld (fun _ => Socket.Done) (fun _ _ => Socket.Done)
    (fun _ => (Socket.Done, [Byte.xee; Byte.x11])) (fun _ => 0)
    (fun _ => true) true (Some 7)
    (IpV4 2130706433) 50505 (mkPSKeys [Byte.x01] [Byte.x02]) 0 [] [].

(** A client that is connected, without session keys yet. *)
Definition connectedNoKeys : Sys unit :=
  HexagonClient_new online world_envelope.

(** A client that has not connected yet: the members as initialized. *)
Definition fresh : Sys unit :=
  mkSys (initialClient world_ok) (note_state Disconnected world_ok).

(** A client whose construction failed for want of a Steam ticket. *)
Definition initFailed : Sys unit :=
  HexagonClient_new online world_no_ticket.


(** A world whose server sends its public key, a login success and then
    a kick. *)
Definition world_kick : World :=
  mkWorld (fun _ => Socket.Done) (fun _ _ => Socket.Done)
    (fun n => if (n <? 8)%nat then (Socket.Done, [Byte.x10])
              else if (n <? 10)%nat then (Socket.Done, [Byte.x11])
              else (Socket.Done, [Byte.x12]))
    (fun _ => 0)
    (fun _ => true) true (Some 7)
    (IpV4 2130706433) 50505 (mkPSKeys [Byte.x01] [Byte.x02]) 0 [] [].

(** A logged-in client that is about to be kicked. *)
Definition loggedInKicked : Sys unit :=
  calls online [Call_update; Call_update] (HexagonClient_new online world_kick).

(** A client connected after its construction failed: no Steam ID. *)
Definition connectedNoTicket : Sys unit :=
  calls online [Call_connect] initFailed.

(** A world whose socket only ever answers Partial. *)
Definition world_partial : World :=
  mkWorld (fun _ => Socket.Done) (fun _ _ => Socket.Partial)
    (fun _ => (Socket.Partial, [Byte.x00])) (fun _ => 0)
    (fun _ => true) true (Some 7)
    (IpV4 2130706433) 50505 (mkPSKeys [Byte.x01] [Byte.x02]) 0 [] [].

(** A client facing that socket. *)
Definition stalled : Sys unit :=
  mkSys (initialClient world_partial) (note_state Disconnected world_partial).

(** A world in which 50 seconds pass after the connection is made, and
    whose socket fails every send from interaction [cut] on. *)
Definition world_late (cut : nat) : World :=
  mkWorld (fun _ => Socket.Done)
    (fun n _ => if (n <? cut)%nat then Socket.Done else Socket.Error)
    (fun _ => (Socket.NotReady, []))
    (fun n => if (n <? 6)%nat then 0 else 50000000000)
    (fun _ => true) true (Some 7)
    (IpV4 2130706433) 50505 (mkPSKeys [Byte.x01] [Byte.x02]) 0 [] [].

(** A connected client whose heartbeat is due. *)
Definition heartbeatDue : Sys unit :=
  HexagonClient_new online (world_late 1000).

(** A connected client whose heartbeat is due, on a socket that has just
    died. *)
Definition heartbeatDueDead : Sys unit :=
  HexagonClient_new online (world_late 6).

(** A connected client with nothing to read. *)
Definition quiet : Sys unit := HexagonClient_new online world_ok.

(** A world whose clock stands at 5e18 nanoseconds while the connection
    is made and at -5e18 afterwards: the difference of the two counts does
    not fit in 64 bits. *)
Definition world_wrap : World :=
  mkWorld (fun _ => Socket.Done) (fun _ _ => Socket.Done)
    (fun _ => (Socket.NotReady, []))
    (fun n => if (n <? 6)%nat then 5000000000000000000
              else -5000000000000000000)
    (fun _ => true) true (Some 7)
    (IpV4 2130706433) 50505 (mkPSKeys [Byte.x01] [Byte.x02]) 0 [] [].

(** A connected client whose clock has jumped back. *)
Definition clockJumpedBack : Sys unit := HexagonClient_new online world_wrap.

End Sample.

(** * Properties *)

Section Properties.

Context {ProcessedScore replay_file : Type}.
Variable online : Online ProcessedScore replay_file.

#[local] Abbreviation Sys := (Sys ProcessedScore).

(** Unfolds the plumbing of the monad. *)
Ltac munfold :=
  unfold bind, ret, fail, throw, value, get_client, modify_client,
    modify_world, assign_state, addEvent, env, exec, result,
    socket_setBlocking, socket_connect, socket_disconnect, Clock_now in *.

Ltac msimpl := repeat progress (munfold; cbn in *).

(** The members stay folded until a proof asks for their body. *)
#[local] Arguments sendPacket : simpl never.
#[local] Arguments sendUnencrypted : simpl never.
#[local] Arguments sendEncrypted : simpl never.
#[local] Arguments sendHeartbeat : simpl never.
#[local] Arguments sendPublicKey : simpl never.
#[local] Arguments sendDisconnect : simpl never.
#[local] Arguments sendLogout : simpl never.
#[local] Arguments initializeTcpSocket : simpl never.
#[local] Arguments initializeTicketSteamID : simpl never.
#[local] Arguments connect : simpl never.
#[local] Arguments disconnect : simpl never.
#[local] Arguments recvPacket : simpl never.
#[local] Arguments sendHeartbeatIfNecessary : simpl never.
#[local] Arguments receiveDataFromServer : simpl never.
#[local] Arguments onServerPacket : simpl never.
#[local] Arguments update : simpl never.

(** ** The frame of sending *)

Lemma sendFrame_refl (s : Sys) : sendFrame s s.
Proof. constructor; reflexivity. Qed.

Lemma sendFrame_trans (s1 s2 s3 : Sys) :
  sendFrame s1 s2 -> sendFrame s2 s3 -> sendFrame s1 s3.
Proof.
  intros [] []; constructor; etransitivity; eassumption.
Qed.

(** One round of [sendPacketRecursive]. *)
Lemma sendPacketRecursive_round (tries : Z) (s : Sys) :
  sendPacketRecursive tries s =
  if Z_gt_dec tries 5 then fail s
  else match do_send s with
       | (Socket.Done, s1) => ret true s1
       | (Socket.Partial, s1) => sendPacketRecursive (tries + 1) s1
       | (_, s1) => fail s1
       end.
Proof.
  rewrite sendPacketRecursive_unfold_eq.
  unfold sendPacketRecursive_unfold, sendPacketRecursive_unfold_clause_1.
  destruct (Z_gt_dec tries 5); [reflexivity|].
  destruct (do_send s) as [[] s1]; reflexivity.
Qed.

(** [sendPacketRecursive] returns, touches no member of the client and
    only adds sends to the log of the socket. *)
Lemma sendPacketRecursive_spec (tries : Z) (s : Sys) :
  exists b w',
    sendPacketRecursive tries s = (Returned b, mkSys (client s) w')
    /\ stateLog w' = stateLog (world s)
    /\ exists ops, sockLog w' = (sockLog (world s) ++ ops)%list
                   /\ forallb isSend ops = true
                   /\ (existsb isFatalSend ops = true -> b = false).
Proof.
  remember (attemptsLeft 6 tries) as n eqn:Hn.
  revert tries s Hn.
  induction n as [n IH] using lt_wf_ind; intros tries s Hn.
  rewrite sendPacketRecursive_round.
  destruct (Z_gt_dec tries 5) as [Hgt|Hle].
  - exists false, (world s). destruct s; cbn.
    split; [reflexivity|]. split; [reflexivity|].
    exists []. rewrite app_nil_r. auto.
  - unfold do_send.
    destruct (sock_send (world s) (steps (world s)) (_packetBuffer (client s)))
      eqn:Est.
    3: { destruct (IH (attemptsLeft 6 (tries + 1))) with (tries := tries + 1)
           (s := mkSys (client s)
                   (interact [OpSend (_packetBuffer (client s)) Socket.Partial]
                      (world s)))
           as (b & w' & E & L & ops & O & F & B);
           [subst n; unfold attemptsLeft; lia | reflexivity |].
         exists b, w'. cbn in *.
         split; [assumption|]. split; [assumption|].
         eexists (_ :: ops). rewrite O, <- app_assoc. cbn.
         split; [reflexivity|]. split; assumption. }
    all: eexists _, _; cbn; split; [reflexivity|]; split; [reflexivity|];
      eexists [_]; cbn; split; [reflexivity|]; split; [reflexivity|];
      try reflexivity; discriminate.
Qed.

Lemma sendPacket_spec (s : Sys) :
  exists b w',
    sendPacket s = (Returned b, mkSys (client s) w')
    /\ stateLog w' = stateLog (world s)
    /\ exists ops, sockLog w' = (sockLog (world s) ++ ops)%list
                   /\ forallb isSend ops = true
                   /\ (existsb isFatalSend ops = true -> b = false).
Proof. apply sendPacketRecursive_spec. Qed.

Lemma sendUnencrypted_spec (data : CTSPacket replay_file) (s : Sys) :
  exists b s',
    sends (sendUnencrypted online data) s b s'
    /\ (_socketConnected (client s) = false -> b = false /\ s' = s).
Proof.
  unfold sends, sendUnencrypted. msimpl.
  destruct (_socketConnected (client s)) eqn:Hc; cbn.
  - match goal with |- context [sendPacket ?x] =>
      destruct (sendPacket_spec x) as (b & w' & E & L & ops & O & F & _) end.
    cbn in *. exists b; eexists. rewrite E.
    repeat split; cbn; try assumption; try discriminate.
    exists ops; split; assumption.
  - exists false, s. repeat split; try apply sendFrame_refl.
    exists []. unfold sockOpsSince. rewrite app_nil_r. auto.
Qed.

Lemma sendEncrypted_spec (data : CTSPacket replay_file) (s : Sys) :
  exists b s',
    sends (sendEncrypted online data) s b s'
    /\ (_socketConnected (client s) = false -> b = false /\ s' = s)
    /\ (_clientRTKeys (client s) = None -> b = false /\ s' = s).
Proof.
  assert (Hnop : exists b s', sends (fun s => (Returned false, s)) s b s'
                 /\ (_socketConnected (client s) = false -> b = false /\ s' = s)
                 /\ (_clientRTKeys (client s) = None -> b = false /\ s' = s)).
  { exists false, s. repeat split; try apply sendFrame_refl.
    exists []. unfold sockOpsSince. rewrite app_nil_r. auto. }
  unfold sends, sendEncrypted in *. msimpl.
  destruct (_socketConnected (client s)) eqn:Hc; cbn; [|exact Hnop].
  destruct (_clientRTKeys (client s)) as [rt|] eqn:Hk; cbn; [|exact Hnop].
  clear Hnop.
  destruct (makeClientToServerEncryptedPacket online (keyTransmit rt) data)
    as [ok buf]; cbn.
  destruct ok; cbn.
  - match goal with |- context [sendPacket ?x] =>
      destruct (sendPacket_spec x) as (b & w' & E & L & ops & O & F & _) end.
    cbn in *. exists b; eexists. rewrite E.
    repeat split; cbn; try assumption; try discriminate.
    exists ops; split; assumption.
  - exists false; eexists. repeat split; cbn; try assumption; try discriminate.
    exists []. unfold sockOpsSince. cbn. rewrite app_nil_r. auto.
Qed.

Lemma sendHeartbeat_spec (s : Sys) :
  exists b s', sends (sendHeartbeat online) s b s'.
Proof.
  destruct (sendUnencrypted_spec CTSPHeartbeat s)
    as (b & s1 & (E & F & ops & O & Hs) & _).
  unfold sends, sendHeartbeat. msimpl. rewrite E.
  destruct b; cbn.
  - eexists _, _. split; [reflexivity|].
    destruct F. split; [constructor; cbn; congruence|].
    exists ops. unfold sockOpsSince in *. cbn. rewrite O, app_nil_r. auto.
  - exists false, s1. split; [reflexivity|]. split; [assumption|].
    exists ops; auto.
Qed.

Lemma sendPublicKey_spec (s : Sys) :
  exists b s', sends (sendPublicKey online) s b s'.
Proof.
  unfold sendPublicKey. msimpl.
  destruct (sendUnencrypted_spec
              (CTSPPublicKey (keyPublic (_clientPSKeys (client s)))) s)
    as (b & s1 & H & _).
  exists b, s1. exact H.
Qed.

(** ** [disconnect] *)

Lemma app_nil_sockOps (s : Sys) : sockOpsSince s s [].
Proof. unfold sockOpsSince. now rewrite app_nil_r. Qed.

Lemma disconnect_spec (s : Sys) :
  exists s' ops,
    disconnect online s = (Returned tt, s')
    /\ _state (client s') = Disconnected
    /\ _socketConnected (client s') = false
    /\ disconnectFrame s s'
    /\ stateLog (world s') = (stateLog (world s) ++ [Disconnected])%list
    /\ sockOpsSince s s' (OpSetBlocking true :: ops ++ [OpDisconnect])
    /\ forallb isSend ops = true
    /\ (_state (client s) <> Connected -> _state (client s) <> LoggedIn ->
        ops = []).
Proof.
  unfold disconnect. msimpl.
  set (s0 := mkSys (client s) (interact [OpSetBlocking true] (world s))).
  fold s0.
  match goal with
  | |- exists _ _, (let (_, _) := ?m s0 in _) = _ /\ _ =>
      assert (Hlog : exists b1 s1,
                 m s0 = (Returned b1, s1)
                 /\ sendFrame s0 s1
                 /\ exists ops, sockOpsSince s0 s1 ops
                    /\ forallb isSend ops = true
                    /\ (_state (client s) <> LoggedIn -> ops = []))
  end.
  { destruct (State_eqb (_state (client s)) LoggedIn) eqn:Hst.
    - destruct (_ticketSteamID (client s)) as [id|].
      + destruct (sendEncrypted_spec (CTSPLogout id) s0)
          as (b & s1 & (E & F & ops & O & Hs) & _).
        unfold sendLogout. rewrite E. exists tt, s1.
        split; [reflexivity|]. split; [assumption|].
        exists ops. split; [assumption|]. split; [assumption|].
        intros Hn. destruct (_state (client s)); try discriminate.
        now elim Hn.
      + exists tt, s0. split; [reflexivity|]. split; [apply sendFrame_refl|].
        exists []. split; [apply app_nil_sockOps|]. auto.
    - exists tt, s0. split; [reflexivity|]. split; [apply sendFrame_refl|].
      exists []. split; [apply app_nil_sockOps|]. auto. }
  destruct Hlog as (b1 & s1 & E1 & F1 & ops1 & O1 & S1 & N1).
  rewrite E1.
  assert (Hst1 : _state (client s1) = _state (client s))
    by (destruct F1; assumption).
  rewrite Hst1.
  destruct (State_eqb (_state (client s)) Connected
            || State_eqb (_state (client s)) LoggedIn) eqn:Hor.
  - destruct (sendUnencrypted_spec CTSPDisconnect s1)
      as (b2 & s2 & (E2 & F2 & ops2 & O2 & S2) & _).
    unfold sendDisconnect. rewrite E2. cbn.
    eexists _, (ops1 ++ ops2)%list. split; [reflexivity|]. cbn.
    destruct F1, F2. unfold sockOpsSince in *. subst s0. cbn in *.
    repeat split; cbn; try congruence.
    + rewrite O2, O1. rewrite <- !app_assoc. reflexivity.
    + rewrite forallb_app, S1, S2. reflexivity.
    + intros Hc Hl. destruct (_state (client s)); try discriminate;
        congruence.
  - eexists _, ops1. split; [reflexivity|]. cbn.
    destruct F1. unfold sockOpsSince in *. subst s0. cbn in *.
    repeat split; cbn; try congruence.
    + rewrite O1. rewrite <- !app_assoc. reflexivity.
    + intros _ Hl. auto.
Qed.

Lemma disconnectFrame_after_send (s s1 s' : Sys) :
  sendFrame s s1 -> disconnectFrame s1 s' -> disconnectFrame s s'.
Proof.
  intros [] []; constructor; etransitivity; eassumption.
Qed.

(** ** Receiving *)

(** One round of [recvPacketRecursive]. *)
Lemma recvPacketRecursive_round (tries : Z) (s : Sys) :
  recvPacketRecursive online tries s =
  if Z_gt_dec tries 5 then fail s
  else match do_receive s with
       | (Socket.Done, s1) => ret true s1
       | (Socket.Partial, s1) => recvPacketRecursive online (tries + 1) s1
       | (Socket.NotReady, s1) => fail s1
       | (_, s1) => (disconnect online ;; fail) s1
       end.
Proof.
  rewrite recvPacketRecursive_unfold_eq.
  unfold recvPacketRecursive_unfold, recvPacketRecursive_unfold_clause_1.
  destruct (Z_gt_dec tries 5); [reflexivity|].
  destruct (do_receive s) as [[] s1]; reflexivity.
Qed.

(** [recvPacketRecursive] returns. If one of its receives ended in a fatal
    status, the client has been disconnected by the time it returns
    [false]; otherwise only the packet buffer has changed. *)
Lemma recvPacketRecursive_spec (tries : Z) (s : Sys) :
  exists b s' ops,
    recvPacketRecursive online tries s = (Returned b, s')
    /\ sockOpsSince s s' ops
    /\ if existsb isFatalReceive ops
       then b = false
            /\ _state (client s') = Disconnected
            /\ _socketConnected (client s') = false
            /\ stateLog (world s') = (stateLog (world s) ++ [Disconnected])%list
            /\ (exists before, ops = (before ++ [OpDisconnect])%list)
            /\ disconnectFrame s s'
       else sendFrame s s'.
Proof.
  remember (attemptsLeft 6 tries) as n eqn:Hn.
  revert tries s Hn.
  induction n as [n IH] using lt_wf_ind; intros tries s Hn.
  rewrite recvPacketRecursive_round.
  destruct (Z_gt_dec tries 5) as [Hgt|Hle].
  { exists false, s, []. split; [reflexivity|].
    split; [apply app_nil_sockOps|]. cbn. apply sendFrame_refl. }
  unfold do_receive.
  set (st := fst (sock_receive (world s) (steps (world s)))).
  set (p := snd (sock_receive (world s) (steps (world s)))).
  set (s1 := mkSys (set_packetBuffer p (client s))
                   (interact [OpReceive st p] (world s))).
  assert (F1 : sendFrame s s1) by (constructor; reflexivity).
  assert (Hfatal : Socket.fatal st = true ->
            exists b s' ops,
              (disconnect online ;; fail) s1 = (Returned b, s')
              /\ sockOpsSince s s' ops
              /\ if existsb isFatalReceive ops
                 then b = false
                      /\ _state (client s') = Disconnected
                      /\ _socketConnected (client s') = false
                      /\ stateLog (world s')
                         = (stateLog (world s) ++ [Disconnected])%list
                      /\ (exists before, ops = (before ++ [OpDisconnect])%list)
                      /\ disconnectFrame s s'
                 else sendFrame s s').
  { intros Hf.
    destruct (disconnect_spec s1)
      as (s' & ops & E & Hst & Hc & D & L & O & _).
    exists false, s', (OpReceive st p :: OpSetBlocking true :: ops ++ [OpDisconnect])%list.
    unfold bind. rewrite E. split; [reflexivity|].
    split.
    { unfold sockOpsSince in *. rewrite O. subst s1. cbn.
      rewrite <- app_assoc. reflexivity. }
    cbn [existsb isFatalReceive]. rewrite Hf. cbn [orb].
    split; [reflexivity|]. split; [assumption|]. split; [assumption|].
    split; [rewrite L; reflexivity|].
    split; [|eapply disconnectFrame_after_send; eassumption].
    exists (OpReceive st p :: OpSetBlocking true :: ops)%list. reflexivity. }
  assert (Hone : forall b, Socket.fatal st = false ->
            exists b' s' ops,
              (Returned b, s1) = (Returned b', s')
              /\ sockOpsSince s s' ops
              /\ if existsb isFatalReceive ops
                 then b' = false
                      /\ _state (client s') = Disconnected
                      /\ _socketConnected (client s') = false
                      /\ stateLog (world s')
                         = (stateLog (world s) ++ [Disconnected])%list
                      /\ (exists before, ops = (before ++ [OpDisconnect])%list)
                      /\ disconnectFrame s s'
                 else sendFrame s s').
  { intros b Hf. exists b, s1, [OpReceive st p].
    split; [reflexivity|]. split; [reflexivity|].
    cbn. rewrite Hf. cbn. exact F1. }
  destruct st eqn:Est.
  - apply (Hone true). reflexivity.
  - apply (Hone false). reflexivity.
  - destruct (IH (attemptsLeft 6 (tries + 1))) with (tries := tries + 1) (s := s1)
      as (b & s' & ops & E & O & P);
      [subst n; unfold attemptsLeft; lia | reflexivity |].
    exists b, s', (OpReceive Socket.Partial p :: ops).
    split; [exact E|].
    split.
    { unfold sockOpsSince in *. rewrite O. subst s1. cbn.
      rewrite <- app_assoc. reflexivity. }
    cbn [existsb isFatalReceive Socket.fatal orb].
    destruct (existsb isFatalReceive ops).
    + destruct P as (P1 & P2 & P3 & P4 & (before & P5) & P6).
      split; [assumption|]. split; [assumption|]. split; [assumption|].
      split; [assumption|].
      split; [|eapply disconnectFrame_after_send; eassumption].
      exists (OpReceive Socket.Partial p :: before). rewrite P5. reflexivity.
    + eapply sendFrame_trans; eassumption.
  - apply Hfatal. reflexivity.
  - apply Hfatal. reflexivity.
Qed.

Lemma recvPacket_spec (s : Sys) :
  exists b s' ops,
    recvPacket online s = (Returned b, s')
    /\ sockOpsSince s s' ops
    /\ if existsb isFatalReceive ops
       then b = false
            /\ _state (client s') = Disconnected
            /\ _socketConnected (client s') = false
            /\ stateLog (world s') = (stateLog (world s) ++ [Disconnected])%list
            /\ (exists before, ops = (before ++ [OpDisconnect])%list)
            /\ disconnectFrame s s'
       else sendFrame s s'.
Proof. apply recvPacketRecursive_spec. Qed.

(** ** [connect] *)

Lemma connect_spec (s : Sys) :
  _socketConnected (client s) = false ->
  exists b s',
    connect online s = (Returned b, s')
    /\ if b
       then _state (client s') = Connected
            /\ stateLog (world s')
               = (stateLog (world s) ++ [Connecting; Connected])%list
            /\ _events (client s')
               = (_events (client s) ++ [EConnectionSuccess])%list
       else _state (client s') = ConnectionError
            /\ stateLog (world s')
               = (stateLog (world s) ++ [Connecting; ConnectionError])%list
            /\ exists reason,
                 reason <> EmptyString
                 /\ _events (client s')
                    = (_events (client s) ++ [EConnectionFailure reason])%list.
Proof.
  intros Hc. unfold connect, initializeTcpSocket, failEvent, do_connect.
  msimpl. rewrite Hc. cbn. rewrite Hc. cbn.
  destruct (sock_connect (world s) (S (steps (world s)))) eqn:Est; cbn.
  2-5: eexists false, _; split; [reflexivity|]; cbn;
       rewrite <- app_assoc; repeat split; eexists; split; [|reflexivity];
       discriminate.
  match goal with |- context [sendHeartbeat online ?x] =>
    destruct (sendHeartbeat_spec x) as (b1 & s1 & E1 & F1 & _) end.
  rewrite E1. destruct F1; cbn in *.
  destruct b1; cbn.
  2: { eexists false, _; split; [reflexivity|]; cbn.
       rewrite frame_stateLog0, frame_events0, <- app_assoc.
       repeat split; eexists; split; [|reflexivity]; discriminate. }
  destruct (sendPublicKey_spec s1) as (b2 & s2 & E2 & F2 & _).
  rewrite E2. destruct F2; cbn in *.
  destruct b2; cbn.
  2: { eexists false, _; split; [reflexivity|]; cbn.
       rewrite frame_stateLog1, frame_events1, frame_stateLog0, frame_events0,
         <- app_assoc.
       repeat split; eexists; split; [|reflexivity]; discriminate. }
  eexists true, _; split; [reflexivity|]; cbn.
  rewrite frame_stateLog1, frame_events1, frame_stateLog0, frame_events0,
    <- app_assoc.
  repeat split.
Qed.



(** ** Requests made in the wrong state *)

Lemma State_eqb_eq (a b : State) : State_eqb a b = true <-> a = b.
Proof. destruct a, b; cbn; split; congruence. Qed.

Lemma State_eqb_neq (a b : State) : a <> b -> State_eqb a b = false.
Proof.
  intros H. destruct (State_eqb a b) eqn:E; [|reflexivity].
  apply State_eqb_eq in E. contradiction.
Qed.

Lemma connectedAndInState_false (st : State) (c : Client ProcessedScore) :
  _socketConnected c = false \/ _state c <> st ->
  connectedAndInState st c = false.
Proof.
  unfold connectedAndInState. intros [H|H].
  - rewrite H. reflexivity.
  - rewrite (State_eqb_neq H). apply andb_false_r.
Qed.

(** What a request does when its guard [connectedAndInState] fails. *)
Ltac guard_fails H :=
  msimpl; rewrite (@connectedAndInState_false _ _ H); reflexivity.

(** C2. Each of the six requests that need LoggedIn, called in any other
    state, returns [false] and leaves the client and the world exactly as
    they were: nothing is sent, no event is appended, the state is the
    same. *)
Theorem loggedIn_requests_elsewhere
    (s : Sys) (levelValidator : string) (replayFile : replay_file) :
  _state (client s) <> LoggedIn ->
  tryLogoutFromServer online s = (Returned false, s)
  /\ tryRequestTopScores online levelValidator s = (Returned false, s)
  /\ trySendReplay online replayFile s = (Returned false, s)
  /\ tryRequestOwnScore online levelValidator s = (Returned false, s)
  /\ tryRequestTopScoresAndOwnScore online levelValidator s
     = (Returned false, s)
  /\ trySendStartedGame online levelValidator s = (Returned false, s).
Proof.
  intros H.
  assert (G : _socketConnected (client s) = false
              \/ _state (client s) <> LoggedIn) by (right; exact H).
  unfold tryLogoutFromServer, tryRequestTopScores, trySendReplay,
    tryRequestOwnScore, tryRequestTopScoresAndOwnScore, trySendStartedGame.
  repeat split; guard_fails G.
Qed.

(** C7. [disconnect] on a client whose state is Disconnected returns (it
    does not throw), leaves the state Disconnected, hands nothing to the
    socket to send (the socket is only made blocking and closed) and
    appends no event. *)
Theorem disconnect_when_Disconnected (s : Sys) :
  _state (client s) = Disconnected ->
  exists s',
    disconnect online s = (Returned tt, s')
    /\ _state (client s') = Disconnected
    /\ sockLog (world s')
       = (sockLog (world s) ++ [OpSetBlocking true; OpDisconnect])%list
    /\ sentPackets s' = sentPackets s
    /\ _events (client s') = _events (client s).
Proof.
  intros H. unfold disconnect. msimpl. rewrite H. msimpl. rewrite H. msimpl.
  eexists. split; [reflexivity|]. cbn.
  split; [reflexivity|]. split; [rewrite <- app_assoc; reflexivity|].
  split; [|reflexivity].
  unfold sentPackets. cbn. rewrite <- app_assoc, filter_app. cbn.
  apply app_nil_r.
Qed.

(** C8. [tryRegister] on a connected client in state Connected, with an
    empty name, a name of more than 32 characters or an empty password,
    returns [false], appends exactly one [ERegistrationFailure] whose reason
    names the fields as too long or empty, and leaves the world as it was:
    nothing is sent. The empty name with the password abc is such a call. *)
Theorem tryRegister_bad_credentials (s : Sys) (name password : string) :
  _socketConnected (client s) = true ->
  _state (client s) = Connected ->
  name = EmptyString \/ (32 < String.length name)%nat
    \/ password = EmptyString ->
  tryRegister online name password s
  = (Returned false,
     mkSys
       (set_events
          (_events (client s)
           ++ [ERegistrationFailure
                 "Name or password fields too long or empty"])
          (client s))
       (world s))
  /\ tryRegister online EmptyString "abc" s
     = (Returned false,
        mkSys
          (set_events
             (_events (client s)
              ++ [ERegistrationFailure
                    "Name or password fields too long or empty"])
             (client s))
          (world s)).
Proof.
  intros Hc Hs Hbad.
  assert (G : connectedAndInState Connected (client s) = true).
  { unfold connectedAndInState. rewrite Hc, Hs. reflexivity. }
  assert (B : badCredentials name password = true).
  { unfold badCredentials. destruct Hbad as [-> | [Hl | ->]].
    - reflexivity.
    - apply Nat.ltb_lt in Hl. rewrite Hl, orb_true_r. reflexivity.
    - cbn. apply orb_true_r. }
  unfold tryRegister. msimpl. rewrite G. cbn. rewrite B. cbn.
  split; reflexivity.
Qed.

(** C9. [tryLogoutFromServer] on a connected client in state LoggedIn logs
    out on the client side before anything is sent: whatever the send does,
    and even if reading the Steam ID throws, the state is Connected and the
    login token and name are empty afterwards. With a Steam ID, the call
    returns what [sendLogout] returns on the client so logged out. *)
Theorem tryLogoutFromServer_logs_out_first (s : Sys) :
  _socketConnected (client s) = true ->
  _state (client s) = LoggedIn ->
  let loggedOut :=
    mkSys (set_loginName None
             (set_loginToken None (set_state Connected (client s))))
          (note_state Connected (world s)) in
  let s' := exec (tryLogoutFromServer online) s in
  _state (client s') = Connected
  /\ _loginToken (client s') = None
  /\ _loginName (client s') = None
  /\ match _ticketSteamID (client s) with
     | Some steamId =>
         tryLogoutFromServer online s = sendLogout online steamId loggedOut
     | None =>
         tryLogoutFromServer online s = (Thrown bad_optional_access, loggedOut)
     end.
Proof.
  intros Hc Hs. cbn zeta.
  assert (G : connectedAndInState LoggedIn (client s) = true).
  { unfold connectedAndInState. rewrite Hc, Hs. reflexivity. }
  unfold tryLogoutFromServer. msimpl. rewrite G. cbn.
  destruct (_ticketSteamID (client s)) as [steamId|]; cbn.
  - match goal with |- context [sendLogout online steamId ?x] =>
      destruct (sendEncrypted_spec (CTSPLogout steamId) x)
        as (b & s1 & (E & F & _) & _) end.
    unfold sendLogout. rewrite E. destruct F. cbn in *.
    repeat split; assumption.
  - repeat split.
Qed.

(** C10. [update] on a client whose socket is not connected returns at
    once and changes nothing, in the client or in the world: no heartbeat,
    no receive, no event, the same state, keys and login session. *)
Theorem update_when_not_connected (s : Sys) :
  _socketConnected (client s) = false ->
  update online s = (Returned tt, s).
Proof.
  intros H. unfold update. msimpl. rewrite H. reflexivity.
Qed.

(** ** The login session *)

(** The handler of [STCPLoginSuccess] creates the login session. *)
Lemma login_success_creates_session
    (s : Sys) (loginToken : Z) (loginName : string) :
  let s' := exec (onServerPacket online (STCPLoginSuccess loginToken loginName)) s in
  _state (client s') = LoggedIn
  /\ _loginToken (client s') = Some loginToken
  /\ _loginName (client s') = Some loginName.
Proof. unfold onServerPacket. msimpl. repeat split. Qed.

(** [disconnect] does not touch the login session. *)
Lemma disconnect_keeps_session (s : Sys) :
  let s' := exec (disconnect online) s in
  _state (client s') = Disconnected
  /\ _loginToken (client s') = _loginToken (client s)
  /\ _loginName (client s') = _loginName (client s).
Proof.
  destruct (disconnect_spec s) as (s' & ops & E & Hst & _ & D & _).
  unfold exec. rewrite E. cbn. destruct D. repeat split; assumption.
Qed.

(** ** Encrypted messages without session keys *)

(** C4. Without session keys, [sendEncrypted] returns [false] and leaves
    the client and the world as they were: nothing is sent, encrypted or
    plain. And when a connected client without session keys receives a
    packet whose outer decoding is an encrypted envelope, the packet is
    decoded as invalid and [receiveDataFromServer] returns [false], the
    client being as the receive left it: the envelope is not read as a
    plaintext message. *)
Theorem encrypted_without_keys_fails
    (s : Sys) (data : CTSPacket replay_file) :
  _clientRTKeys (client s) = None ->
  sendEncrypted online data s = (Returned false, s)
  /\ forall (s1 : Sys) (nonce ciphertext : list Byte.byte),
       _socketConnected (client s) = true ->
       recvPacket online s = (Returned true, s1) ->
       decodeOuter online (_packetBuffer (client s1))
       = PEncryptedMsg nonce ciphertext ->
       (exists error,
           decodeServerToClientPacket online
             (option_map keyReceive (_clientRTKeys (client s1)))
             (_packetBuffer (client s1))
           = PInvalid error)
       /\ receiveDataFromServer online s = (Returned false, s1).
Proof.
  intros Hk. split.
  - unfold sendEncrypted. msimpl.
    destruct (_socketConnected (client s)); cbn; [|reflexivity].
    rewrite Hk. reflexivity.
  - intros s1 nonce ciphertext Hc Hrecv Hdec.
    assert (Hk1 : _clientRTKeys (client s1) = None).
    { destruct (recvPacket_spec s) as (b & s' & ops & E & _ & P).
      rewrite Hrecv in E. injection E as <- <-.
      destruct (existsb isFatalReceive ops).
      - destruct P as (P & _). discriminate.
      - destruct P. congruence. }
    assert (Hinv : decodeServerToClientPacket online
                     (option_map keyReceive (_clientRTKeys (client s1)))
                     (_packetBuffer (client s1))
                   = PInvalid
                       "cannot decrypt encrypted message without receive key").
    { unfold decodeServerToClientPacket. rewrite Hdec, Hk1. reflexivity. }
    split; [eexists; exact Hinv|].
    unfold receiveDataFromServer. msimpl. rewrite Hc. cbn.
    rewrite Hrecv. cbn. rewrite Hinv. reflexivity.
Qed.

(** ** Fatal failures of the socket *)

(** C5 (as amended). The receive primitive returns; if one of its receives
    ended in a fatal status (Disconnected or Error), it has disconnected
    the client by the time it returns [false]: the state is Disconnected,
    the socket is marked as not connected, and closing the socket is the
    last thing done to it. The send primitive returns too, and returns
    [false] if one of its sends ended in a fatal status, but it touches no
    member of the client and does nothing to the socket but send: it does
    not disconnect. *)
Theorem fatal_socket_failure (tries : Z) (s : Sys) :
  (exists b s' ops,
      recvPacketRecursive online tries s = (Returned b, s')
      /\ sockOpsSince s s' ops
      /\ (existsb isFatalReceive ops = true ->
          b = false
          /\ _state (client s') = Disconnected
          /\ _socketConnected (client s') = false
          /\ exists before, ops = (before ++ [OpDisconnect])%list))
  /\ (exists b s' ops,
        sendPacketRecursive tries s = (Returned b, s')
        /\ sockOpsSince s s' ops
        /\ (existsb isFatalSend ops = true -> b = false)
        /\ client s' = client s
        /\ forallb isSend ops = true).
Proof.
  split.
  - destruct (recvPacketRecursive_spec tries s) as (b & s' & ops & E & O & P).
    exists b, s', ops. split; [assumption|]. split; [assumption|].
    intros Hf. rewrite Hf in P.
    destruct P as (P1 & P2 & P3 & _ & P5 & _). auto.
  - destruct (sendPacketRecursive_spec tries s)
      as (b & w' & E & _ & ops & O & F & B).
    exists b, (mkSys (client s) w'), ops. auto.
Qed.

(** ** Construction, and what follows an initialization error *)

Lemma waitTicketResponse_round (tries : Z) (s : Sys) :
  waitTicketResponse tries s =
  if got_encrypted_app_ticket_response s then (true, s)
  else if Z_gt_dec (tries + 1) 15 then (false, do_run_callbacks s)
       else waitTicketResponse (tries + 1) (do_run_callbacks s).
Proof.
  rewrite waitTicketResponse_unfold_eq.
  unfold waitTicketResponse_unfold, waitTicketResponse_unfold_clause_1.
  destruct (got_encrypted_app_ticket_response s); [reflexivity|].
  unfold waitTicketResponse_unfold_clause_1_clause_2.
  destruct (Z_gt_dec (tries + 1) 15); reflexivity.
Qed.

(** Waiting for Steam touches neither the client nor the socket. *)
Lemma waitTicketResponse_spec (tries : Z) (s : Sys) :
  client (snd (waitTicketResponse tries s)) = client s
  /\ sockLog (world (snd (waitTicketResponse tries s))) = sockLog (world s)
  /\ stateLog (world (snd (waitTicketResponse tries s)))
     = stateLog (world s).
Proof.
  remember (attemptsLeft 16 tries) as n eqn:Hn.
  revert tries s Hn.
  induction n as [n IH] using lt_wf_ind; intros tries s Hn.
  rewrite waitTicketResponse_round.
  destruct (got_encrypted_app_ticket_response s); [auto|].
  destruct (Z_gt_dec (tries + 1) 15) as [Hgt|Hle].
  - cbn. rewrite app_nil_r. auto.
  - destruct (IH (attemptsLeft 16 (tries + 1))) with (tries := tries + 1)
      (s := do_run_callbacks s) as (C & L & T);
      [subst n; unfold attemptsLeft; lia | reflexivity |].
    rewrite C, L, T. cbn. rewrite app_nil_r. auto.
Qed.

Lemma initializeTicketSteamID_spec (s : Sys) :
  exists b s',
    initializeTicketSteamID s = (Returned b, s')
    /\ _socketConnected (client s') = _socketConnected (client s)
    /\ _state (client s') = _state (client s).
Proof.
  unfold initializeTicketSteamID. msimpl.
  destruct (waitTicketResponse_spec 0 s) as (C & _ & _).
  destruct (waitTicketResponse 0 s) as [responded s1]. cbn in *.
  destruct responded; cbn.
  2: { exists false, s1. rewrite C. auto. }
  destruct (steam_got_ticket (world s1)); cbn.
  2: { exists false, s1. rewrite C. auto. }
  destruct (steam_ticket_id (world s1)); cbn.
  - eexists true, _. split; [reflexivity|]. cbn. rewrite C. auto.
  - exists false, s1. rewrite C. auto.
Qed.

(** A client constructed in InitError has no connected socket. *)
Lemma InitError_not_connected (w : World) :
  _state (client (HexagonClient_new online w)) = InitError ->
  _socketConnected (client (HexagonClient_new online w)) = false.
Proof.
  unfold HexagonClient_new, HexagonClient_body. msimpl.
  destruct (IpAddress_isNone (Config_getServerIp w)); cbn; [reflexivity|].
  match goal with |- context [initializeTicketSteamID ?x] =>
    destruct (initializeTicketSteamID_spec x) as (b & s1 & E & Hc & Hs) end.
  rewrite E. cbn in *. destruct b; cbn.
  - destruct (connect_spec s1) as (b2 & s2 & E2 & P); [assumption|].
    rewrite E2. cbn. intros H.
    destruct b2; destruct P as (P & _); congruence.
  - intros _. assumption.
Qed.

(** Without [connect], an idle client stays idle, and sends nothing. *)
Lemma call_idle (a : ApiCall replay_file) (s : Sys) :
  isConnect a = false ->
  idle s ->
  idle (exec (call online a) s)
  /\ sentPackets (exec (call online a) s) = sentPackets s
  /\ (a <> Call_disconnect ->
      _state (client (exec (call online a) s)) = _state (client s)).
Proof.
  intros Ha [Hc Hs].
  assert (G : forall st, connectedAndInState st (client s) = false).
  { intros st. apply connectedAndInState_false. left. exact Hc. }
  assert (I : idle s) by (split; assumption).
  destruct a; try discriminate Ha; unfold call.
  - (* disconnect *)
    destruct (disconnect_spec s)
      as (s' & ops & E & Hst & Hc' & D & L & O & F & N).
    unfold exec. rewrite E. cbn.
    split; [split; auto|]. split; [|congruence].
    rewrite N in O by (destruct Hs; congruence).
    unfold sentPackets. rewrite O, filter_app. cbn. apply app_nil_r.
  - unfold update. msimpl. rewrite Hc. cbn. auto.
  - unfold tryRegister. msimpl. rewrite G. cbn. auto.
  - unfold tryLogin. msimpl. rewrite G. cbn. auto.
  - unfold tryLogoutFromServer. msimpl. rewrite G. cbn. auto.
  - unfold tryDeleteAccount. msimpl. rewrite G. cbn. auto.
  - unfold tryRequestTopScores. msimpl. rewrite G. cbn. auto.
  - unfold trySendReplay. msimpl. rewrite G. cbn. auto.
  - unfold tryRequestOwnScore. msimpl. rewrite G. cbn. auto.
  - unfold tryRequestTopScoresAndOwnScore. msimpl. rewrite G. cbn. auto.
  - unfold trySendStartedGame. msimpl. rewrite G. cbn. auto.
  - unfold getState. msimpl. auto.
  - unfold getLoginName. msimpl. auto.
  - unfold pollEvent. msimpl.
    destruct (_events (client s)); cbn; [auto|].
    split; [split; assumption|]. auto.
Qed.

Lemma calls_idle (l : list (ApiCall replay_file)) (s : Sys) :
  existsb isConnect l = false ->
  idle s ->
  idle (calls online l s)
  /\ sentPackets (calls online l s) = sentPackets s
  /\ (~ In Call_disconnect l ->
      _state (client (calls online l s)) = _state (client s)).
Proof.
  revert s. induction l as [|a l IH]; intros s Hl I; cbn in *.
  - auto.
  - apply orb_false_iff in Hl. destruct Hl as [Ha Hl].
    destruct (call_idle a Ha I) as (I1 & S1 & T1).
    destruct (IH _ Hl I1) as (I2 & S2 & T2).
    split; [assumption|]. split; [congruence|].
    intros Hn. rewrite T2, T1; auto.
Qed.

(** What the code does to a client that the constructor has left in
    InitError. Without [connect], no sequence of public calls reaches
    Connecting, Connected or LoggedIn: the state stays InitError (or is
    Disconnected, once [disconnect] has been called), the socket stays
    not connected and nothing is sent. Nothing in [connect] looks at
    InitError: it returns, having moved the state to Connecting and from
    there to Connected, if it returns [true], or to ConnectionError. *)
Theorem InitError_left_only_by_connect (w : World) :
  _state (client (HexagonClient_new online w)) = InitError ->
  (forall l : list (ApiCall replay_file),
      existsb isConnect l = false ->
      let s := calls online l (HexagonClient_new online w) in
      (_state (client s) = InitError \/ _state (client s) = Disconnected)
      /\ (~ In Call_disconnect l -> _state (client s) = InitError)
      /\ _socketConnected (client s) = false
      /\ sentPackets s = sentPackets (HexagonClient_new online w))
  /\ exists b s',
       connect online (HexagonClient_new online w) = (Returned b, s')
       /\ _state (client s') = (if b then Connected else ConnectionError)
       /\ stateLog (world s')
          = (stateLog (world (HexagonClient_new online w))
             ++ [Connecting; _state (client s')])%list.
Proof.
  intros H.
  pose proof (InitError_not_connected w H) as Hc.
  split.
  - intros l Hl. cbn zeta.
    destruct (@calls_idle l (HexagonClient_new online w) Hl) as ((C & S) & P & T).
    { split; auto. }
    repeat split; auto. intros Hn. rewrite T; auto.
  - destruct (connect_spec _ Hc) as (b & s' & E & P).
    exists b, s'. split; [assumption|].
    destruct b.
    + destruct P as (P1 & P2 & _). rewrite P1. auto.
    + destruct P as (P1 & P2 & _). rewrite P1. auto.
Qed.


(** * More of the client *)

(** ** Requests that need Connected *)

(** X1. [tryRegister], [tryLogin] and [tryDeleteAccount], called in any
    state other than Connected, return [false] and leave the client and
    the world as they were. *)
Theorem connected_requests_elsewhere (s : Sys) (name password : string) :
  _state (client s) <> Connected ->
  tryRegister online name password s = (Returned false, s)
  /\ tryLogin online name password s = (Returned false, s)
  /\ tryDeleteAccount online password s = (Returned false, s).
Proof.
  intros H.
  assert (G : _socketConnected (client s) = false
              \/ _state (client s) <> Connected) by (right; exact H).
  unfold tryRegister, tryLogin, tryDeleteAccount.
  repeat split; guard_fails G.
Qed.

(** X2. [tryLogin] on a connected client in state Connected, with an empty
    name, a name of more than 32 characters or an empty password, returns
    [false], appends exactly one [ELoginFailure] and leaves the world as it
    was: nothing is sent, whether or not there are session keys. *)
Theorem tryLogin_bad_credentials (s : Sys) (name password : string) :
  _socketConnected (client s) = true ->
  _state (client s) = Connected ->
  name = EmptyString \/ (32 < String.length name)%nat
    \/ password = EmptyString ->
  tryLogin online name password s
  = (Returned false,
     mkSys
       (set_events
          (_events (client s)
           ++ [ELoginFailure "Name or password fields too long or empty"])
          (client s))
       (world s)).
Proof.
  intros Hc Hs Hbad.
  assert (G : connectedAndInState Connected (client s) = true).
  { unfold connectedAndInState. rewrite Hc, Hs. reflexivity. }
  assert (B : badCredentials name password = true).
  { unfold badCredentials. destruct Hbad as [-> | [Hl | ->]].
    - reflexivity.
    - apply Nat.ltb_lt in Hl. rewrite Hl, orb_true_r. reflexivity.
    - cbn. apply orb_true_r. }
  unfold tryLogin. msimpl. rewrite G. cbn. rewrite B. reflexivity.
Qed.

(** X3. A name of 32 characters is accepted: with credentials that pass
    the check, [tryRegister] and [tryLogin] on a connected client in state
    Connected with a Steam ID append no event and hand the request, with
    the hashed password, to [sendEncrypted]. *)
Theorem good_credentials_are_sent
    (s : Sys) (name password : string) (steamId : Z) :
  _socketConnected (client s) = true ->
  _state (client s) = Connected ->
  _ticketSteamID (client s) = Some steamId ->
  (0 < String.length name <= 32)%nat ->
  (0 < String.length password)%nat ->
  tryRegister online name password s
  = sendEncrypted online
      (CTSPRegister steamId name (sodiumHash online ("salt" ++ password))) s
  /\ tryLogin online name password s
     = sendEncrypted online
         (CTSPLogin steamId name (sodiumHash online ("salt" ++ password))) s.
Proof.
  intros Hc Hs Ht [Hn1 Hn2] Hp.
  assert (G : connectedAndInState Connected (client s) = true).
  { unfold connectedAndInState. rewrite Hc, Hs. reflexivity. }
  assert (B : badCredentials name password = false).
  { unfold badCredentials.
    destruct (Nat.eqb_spec (String.length name) 0); [lia|].
    destruct (Nat.ltb_spec 32 (String.length name)); [lia|].
    destruct (Nat.eqb_spec (String.length password) 0); [lia|].
    reflexivity. }
  unfold tryRegister, tryLogin, sendRegister, sendLogin, hashPwd.
  msimpl. rewrite G. cbn. rewrite B. cbn. rewrite Ht. cbn.
  destruct s. split; reflexivity.
Qed.

(** X4. Without a Steam ID, the requests that need Connected do not fail
    gracefully: on a connected client in state Connected, [tryRegister] and
    [tryLogin] with credentials that pass the check, and
    [tryDeleteAccount], throw [std::bad_optional_access] out of
    [_ticketSteamID.value()], with nothing sent. *)
Theorem requests_throw_without_ticket
    (s : Sys) (name password : string) :
  _socketConnected (client s) = true ->
  _state (client s) = Connected ->
  _ticketSteamID (client s) = None ->
  (0 < String.length name <= 32)%nat ->
  (0 < String.length password)%nat ->
  tryRegister online name password s = (Thrown bad_optional_access, s)
  /\ tryLogin online name password s = (Thrown bad_optional_access, s)
  /\ tryDeleteAccount online password s = (Thrown bad_optional_access, s).
Proof.
  intros Hc Hs Ht [Hn1 Hn2] Hp.
  assert (G : connectedAndInState Connected (client s) = true).
  { unfold connectedAndInState. rewrite Hc, Hs. reflexivity. }
  assert (B : badCredentials name password = false).
  { unfold badCredentials.
    destruct (Nat.eqb_spec (String.length name) 0); [lia|].
    destruct (Nat.ltb_spec 32 (String.length name)); [lia|].
    destruct (Nat.eqb_spec (String.length password) 0); [lia|].
    reflexivity. }
  unfold tryRegister, tryLogin, tryDeleteAccount.
  msimpl. rewrite G. cbn. rewrite B. cbn. rewrite Ht. cbn.
  repeat split.
Qed.

(** ** [connect] on a connected socket *)

(** X5. [connect] on a client whose socket is already connected, whatever
    its state, returns [false], does nothing to the socket and appends no
    event; all it does is assign Connecting to the state. In particular a
    [connect] that failed after the TCP connection was made cannot be
    retried by another [connect] alone. *)
Theorem connect_when_socket_connected (s : Sys) :
  _socketConnected (client s) = true ->
  connect online s
  = (Returned false,
     mkSys (set_state Connecting (client s))
       (note_state Connecting (world s))).
Proof.
  intros H. unfold connect. msimpl. rewrite H. reflexivity.
Qed.

(** ** The queue of events *)

Lemma calls_pollEvent (k : nat) (s : Sys) :
  calls online (repeat Call_pollEvent k) s
  = mkSys (set_events (skipn k (_events (client s))) (client s)) (world s).
Proof.
  revert s. induction k as [|k IH]; intros s.
  - destruct s as [[] w]. reflexivity.
  - cbn [repeat calls]. rewrite IH. unfold call, pollEvent. msimpl.
    destruct s as [c w]. cbn.
    destruct (_events c) as [|e rest] eqn:E; cbn.
    + rewrite E. rewrite skipn_nil. reflexivity.
    + reflexivity.
Qed.

(** X6. The events come out in the order they went in: after [k] calls to
    [pollEvent], the next one returns the event of rank [k] in the queue,
    or nothing if the queue had no more than [k] events; the queue has
    lost its first [k] events, and nothing else has changed. *)
Theorem pollEvent_fifo (k : nat) (s : Sys) :
  let s' := calls online (repeat Call_pollEvent k) s in
  result pollEvent s' = Returned (nth_error (_events (client s)) k)
  /\ _events (client s') = skipn k (_events (client s))
  /\ world s' = world s.
Proof.
  cbn zeta. rewrite calls_pollEvent. cbn.
  split; [|split; reflexivity].
  unfold pollEvent, result. msimpl.
  revert k. generalize (_events (client s)) as l.
  induction l as [|e l IH]; intros k.
  - rewrite skipn_nil. destruct k; reflexivity.
  - destruct k; cbn; [reflexivity|]. apply IH.
Qed.

(** X7. [addEvent] puts the event behind all the others: it is returned
    by [pollEvent] once every event queued before it has been. *)
Theorem addEvent_is_polled_last (e : Event ProcessedScore) (s : Sys) :
  let s1 := exec (addEvent e) s in
  result pollEvent
    (calls online
       (repeat Call_pollEvent (List.length (_events (client s)))) s1)
  = Returned (Some e).
Proof.
  cbn zeta. rewrite calls_pollEvent. unfold addEvent. msimpl.
  unfold pollEvent, result. msimpl.
  rewrite skipn_app, skipn_all, Nat.sub_diag. reflexivity.
Qed.

(** ** The bounded retries *)

(** What [sendPacketRecursive] does to the socket: it sends the packet
    buffer, again as long as the socket answers Partial, and the way it
    stops decides what it returns. *)
Lemma sendPacketRecursive_trace (tries : Z) (s : Sys) :
  exists b w' k rest,
    sendPacketRecursive tries s = (Returned b, mkSys (client s) w')
    /\ sockLog w'
       = (sockLog (world s)
          ++ map (OpSend (_packetBuffer (client s)))
               (repeat Socket.Partial k ++ rest))%list
    /\ (k + List.length rest <= attemptsLeft 6 tries)%nat
    /\ ((rest = [Socket.Done] /\ b = true)
        \/ (exists st, rest = [st] /\ st <> Socket.Done
                       /\ st <> Socket.Partial /\ b = false)
        \/ (rest = [] /\ k = attemptsLeft 6 tries /\ b = false)).
Proof.
  remember (attemptsLeft 6 tries) as n eqn:Hn.
  revert tries s Hn.
  induction n as [n IH] using lt_wf_ind; intros tries s Hn.
  rewrite sendPacketRecursive_round.
  destruct (Z_gt_dec tries 5) as [Hgt|Hle].
  - assert (n = 0%nat) by (subst n; unfold attemptsLeft; lia). subst n.
    exists false, (world s), 0%nat, []. destruct s; cbn.
    rewrite app_nil_r. rewrite <- H. auto 10.
  - assert (Hpos : (0 < n)%nat) by (subst n; unfold attemptsLeft; lia).
    unfold do_send.
    destruct (sock_send (world s) (steps (world s)) (_packetBuffer (client s)))
      eqn:Est.
    3: { destruct (IH (attemptsLeft 6 (tries + 1))) with (tries := tries + 1)
           (s := mkSys (client s)
                   (interact [OpSend (_packetBuffer (client s)) Socket.Partial]
                      (world s)))
           as (b & w' & k & rest & E & L & B & O);
           [subst n; unfold attemptsLeft; lia | reflexivity |].
         assert (Hs : attemptsLeft 6 tries = S (attemptsLeft 6 (tries + 1)))
           by (unfold attemptsLeft; lia).
         exists b, w', (S k), rest. cbn in *.
         split; [assumption|].
         split; [rewrite L, <- app_assoc; reflexivity|].
         rewrite Hn, Hs.
         split; [lia|].
         destruct O as [O | [O | (O1 & O2 & O3)]].
         - left. exact O.
         - right. left. exact O.
         - right. right. rewrite O2. auto. }
    all: eexists _, _, 0%nat, [_]; cbn;
      (split; [reflexivity|]); (split; [reflexivity|]);
      (split; [lia|]).
    1: left; auto.
    all: right; left; eexists; repeat split; discriminate.
Qed.

(** X8. One call to [sendPacket] hands the packet buffer, and nothing
    else, to the socket at most six times: again after each Partial, until
    the socket answers Done (the call returns [true]), answers NotReady,
    Error or Disconnected (it returns [false]), or has answered Partial six
    times (it returns [false]). The client is not changed. *)
Theorem sendPacket_outcomes (s : Sys) :
  exists b s' k rest,
    sendPacket s = (Returned b, s')
    /\ client s' = client s
    /\ sockOpsSince s s'
         (map (OpSend (_packetBuffer (client s)))
            (repeat Socket.Partial k ++ rest))
    /\ (k + List.length rest <= 6)%nat
    /\ ((rest = [Socket.Done] /\ b = true)
        \/ (exists st, rest = [st] /\ st <> Socket.Done
                       /\ st <> Socket.Partial /\ b = false)
        \/ (rest = [] /\ k = 6%nat /\ b = false)).
Proof.
  destruct (sendPacketRecursive_trace 0 s)
    as (b & w' & k & rest & E & L & B & O).
  exists b, (mkSys (client s) w'), k, rest.
  split; [exact E|]. split; [reflexivity|]. split; [exact L|].
  split; [exact B|]. exact O.
Qed.

(** X9. What a request hands to the socket is the sealed packet, never
    the plain one: on a connected client with session keys, every packet
    that [sendEncrypted] sends is the one that
    [makeClientToServerEncryptedPacket] built under the current transmit
    key, and when the building fails nothing is sent and the call returns
    [false]. *)
Theorem sendEncrypted_sends_sealed
    (s : Sys) (data : CTSPacket replay_file) (rt : SodiumRTKeys) :
  _socketConnected (client s) = true ->
  _clientRTKeys (client s) = Some rt ->
  let built :=
    makeClientToServerEncryptedPacket online (keyTransmit rt) data in
  exists b s' statuses,
    sendEncrypted online data s = (Returned b, s')
    /\ sockOpsSince s s' (map (OpSend (snd built)) statuses)
    /\ (fst built = false -> statuses = [] /\ b = false).
Proof.
  intros Hc Hk. cbn zeta.
  unfold sendEncrypted. msimpl. rewrite Hc. cbn. rewrite Hk. cbn.
  destruct (makeClientToServerEncryptedPacket online (keyTransmit rt) data)
    as [ok buf]; cbn.
  destruct ok; cbn.
  - match goal with |- context [sendPacket ?x] =>
      destruct (sendPacketRecursive_trace 0 x)
        as (b & w' & k & rest & E & L & _) end.
    unfold sendPacket. rewrite E. cbn in *.
    eexists _, _, _. split; [reflexivity|].
    split; [exact L|]. discriminate.
  - exists false. eexists. exists []. split; [reflexivity|].
    split; [|auto]. unfold sockOpsSince. cbn. now rewrite app_nil_r.
Qed.

(** When the socket keeps answering Partial, a retry goes its whole
    length. *)
Lemma sendPacketRecursive_exhausted (tries : Z) (s : Sys) :
  (forall n p, sock_send (world s) n p = Socket.Partial) ->
  exists w',
    sendPacketRecursive tries s = (Returned false, mkSys (client s) w')
    /\ sockLog w'
       = (sockLog (world s)
          ++ repeat (OpSend (_packetBuffer (client s)) Socket.Partial)
               (attemptsLeft 6 tries))%list.
Proof.
  remember (attemptsLeft 6 tries) as n eqn:Hn.
  revert tries s Hn.
  induction n as [n IH] using lt_wf_ind; intros tries s Hn Hall.
  rewrite sendPacketRecursive_round.
  destruct (Z_gt_dec tries 5) as [Hgt|Hle].
  - assert (n = 0%nat) by (subst n; unfold attemptsLeft; lia). subst n.
    exists (world s). destruct s; cbn. rewrite H. cbn.
    rewrite app_nil_r. auto.
  - unfold do_send. rewrite Hall.
    assert (Hs : attemptsLeft 6 tries = S (attemptsLeft 6 (tries + 1)))
      by (unfold attemptsLeft; lia).
    destruct (IH (attemptsLeft 6 (tries + 1))) with (tries := tries + 1)
      (s := mkSys (client s)
              (interact [OpSend (_packetBuffer (client s)) Socket.Partial]
                 (world s)))
      as (w' & E & L);
      [subst n; unfold attemptsLeft; lia | reflexivity | exact Hall |].
    exists w'. cbn in *. split; [exact E|].
    rewrite L, Hn, Hs, <- app_assoc. reflexivity.
Qed.

Lemma set_packetBuffer_same (c : Client ProcessedScore) :
  c = set_packetBuffer (_packetBuffer c) c.
Proof. destruct c. reflexivity. Qed.

Lemma recvPacketRecursive_exhausted (tries : Z) (s : Sys) :
  (forall n, fst (sock_receive (world s) n) = Socket.Partial) ->
  exists s' packets,
    recvPacketRecursive online tries s = (Returned false, s')
    /\ sendFrame s s'
    /\ client s' = set_packetBuffer (_packetBuffer (client s')) (client s)
    /\ sockOpsSince s s' (map (OpReceive Socket.Partial) packets)
    /\ List.length packets = attemptsLeft 6 tries.
Proof.
  remember (attemptsLeft 6 tries) as n eqn:Hn.
  revert tries s Hn.
  induction n as [n IH] using lt_wf_ind; intros tries s Hn Hall.
  rewrite recvPacketRecursive_round.
  destruct (Z_gt_dec tries 5) as [Hgt|Hle].
  - assert (n = 0%nat) by (subst n; unfold attemptsLeft; lia). subst n.
    exists s, []. split; [reflexivity|]. split; [apply sendFrame_refl|].
    split; [apply set_packetBuffer_same|].
    split; [apply app_nil_sockOps|]. symmetry. exact H.
  - unfold do_receive. rewrite Hall.
    set (p := snd (sock_receive (world s) (steps (world s)))).
    set (s1 := mkSys (set_packetBuffer p (client s))
                     (interact [OpReceive Socket.Partial p] (world s))).
    assert (Hs : attemptsLeft 6 tries = S (attemptsLeft 6 (tries + 1)))
      by (unfold attemptsLeft; lia).
    destruct (IH (attemptsLeft 6 (tries + 1))) with (tries := tries + 1)
      (s := s1) as (s' & packets & E & F & B & O & N);
      [subst n; unfold attemptsLeft; lia | reflexivity | exact Hall |].
    exists s', (p :: packets). split; [exact E|].
    split.
    { eapply sendFrame_trans; [|exact F]. constructor; reflexivity. }
    split.
    { rewrite B. subst s1. reflexivity. }
    split.
    { unfold sockOpsSince in *. rewrite O. subst s1. cbn.
      rewrite <- app_assoc. reflexivity. }
    cbn. rewrite N, Hn, Hs. reflexivity.
Qed.

(** X10. A socket that keeps answering Partial is given up after six
    tries, by the send and by the receive primitive alike: each returns
    [false] having called the socket exactly six times, and neither
    disconnects the client: the send leaves every member as it was, and
    the receive changes the packet buffer and no other member. *)
Theorem retries_exhausted (s : Sys) :
  ((forall n p, sock_send (world s) n p = Socket.Partial) ->
   exists s',
     sendPacket s = (Returned false, s')
     /\ client s' = client s
     /\ sockOpsSince s s'
          (repeat (OpSend (_packetBuffer (client s)) Socket.Partial) 6))
  /\ ((forall n, fst (sock_receive (world s) n) = Socket.Partial) ->
      exists s' packets,
        recvPacket online s = (Returned false, s')
        /\ sendFrame s s'
        /\ client s' = set_packetBuffer (_packetBuffer (client s')) (client s)
        /\ sockOpsSince s s' (map (OpReceive Socket.Partial) packets)
        /\ List.length packets = 6%nat).
Proof.
  split.
  - intros Hall.
    destruct (sendPacketRecursive_exhausted 0 s Hall) as (w' & E & L).
    exists (mkSys (client s) w'). split; [exact E|].
    split; [reflexivity|]. exact L.
  - intros Hall.
    destruct (recvPacketRecursive_exhausted 0 s Hall)
      as (s' & packets & E & F & B & O & N).
    exists s', packets. auto.
Qed.

(** ** What the public members keep *)

Lemma sockOpsSince_same_log (s s' : Sys) :
  sockLog (world s') = sockLog (world s) -> sockOpsSince s s' [].
Proof. unfold sockOpsSince. intros ->. now rewrite app_nil_r. Qed.

Lemma keeps_refl (s : Sys) : keeps s s.
Proof.
  constructor; try reflexivity; [|auto].
  exists []. now rewrite app_nil_r.
Qed.

Lemma keeps_trans (s1 s2 s3 : Sys) : keeps s1 s2 -> keeps s2 s3 -> keeps s1 s3.
Proof.
  intros [T1 P1 [n1 E1] C1] [T2 P2 [n2 E2] C2].
  constructor; try congruence; [|auto].
  exists (n1 ++ n2)%list. rewrite E2, E1, app_assoc. reflexivity.
Qed.

Lemma advances_refl (s : Sys) : advances s s.
Proof. split; [apply keeps_refl|]. exists []. apply app_nil_sockOps. Qed.

Lemma advances_trans (s1 s2 s3 : Sys) :
  advances s1 s2 -> advances s2 s3 -> advances s1 s3.
Proof.
  intros [K1 [o1 O1]] [K2 [o2 O2]].
  split; [eapply keeps_trans; eassumption|].
  exists (o1 ++ o2)%list. unfold sockOpsSince in *.
  rewrite O2, O1, app_assoc. reflexivity.
Qed.

(** Changing the events, the buffer, the time of the last heartbeat or
    the keys of the server does not affect consistency. *)
Lemma consistent_fields (c c' : Client ProcessedScore) :
  _state c' = _state c ->
  _socketConnected c' = _socketConnected c ->
  _loginToken c' = _loginToken c ->
  _loginName c' = _loginName c ->
  consistent c -> consistent c'.
Proof. unfold consistent. intros -> -> -> ->. auto. Qed.

Lemma sendFrame_keeps (s s' : Sys) : sendFrame s s' -> keeps s s'.
Proof.
  intros []. constructor; try assumption.
  - exists []. rewrite app_nil_r. assumption.
  - apply consistent_fields; assumption.
Qed.

Lemma sends_advances {A} (m : M ProcessedScore A) (s : Sys) (a : A) (s' : Sys) :
  sends m s a s' -> advances s s'.
Proof.
  intros (_ & F & ops & O & _).
  split; [exact (sendFrame_keeps F)|]. exists ops. exact O.
Qed.

Lemma Disconnected_consistent (c : Client ProcessedScore) :
  _state c = Disconnected -> consistent c.
Proof. intros H. split; rewrite H; intuition discriminate. Qed.

Lemma disconnect_advances (s : Sys) :
  exists s',
    disconnect online s = (Returned tt, s')
    /\ advances s s'
    /\ _state (client s') = Disconnected
    /\ _socketConnected (client s') = false.
Proof.
  destruct (disconnect_spec s) as (s' & ops & E & Hst & Hc & D & _ & O & _).
  exists s'. split; [exact E|]. split; [|auto].
  split; [|eexists; exact O].
  destruct D. constructor; try assumption.
  - exists []. rewrite app_nil_r. assumption.
  - intros _. apply Disconnected_consistent. exact Hst.
Qed.

Lemma recvPacket_advances (s : Sys) :
  exists b s',
    recvPacket online s = (Returned b, s')
    /\ advances s s'
    /\ (b = true -> sendFrame s s').
Proof.
  destruct (recvPacket_spec s) as (b & s' & ops & E & O & P).
  exists b, s'. split; [exact E|].
  destruct (existsb isFatalReceive ops).
  - destruct P as (Hb & Hst & Hc & _ & _ & D).
    split; [|intros Hb'; congruence].
    split; [|eexists; exact O].
    destruct D. constructor; try assumption.
    + exists []. rewrite app_nil_r. assumption.
    + intros _. apply Disconnected_consistent. exact Hst.
  - split; [|auto]. split; [exact (sendFrame_keeps P)|eexists; exact O].
Qed.

(** The visitor of the packets of the server, on a connected client. *)
Lemma onServerPacket_advances
    (pv : PVServerToClient ProcessedScore) (s : Sys) :
  _socketConnected (client s) = true ->
  exists b s', onServerPacket online pv s = (Returned b, s') /\ advances s s'.
Proof.
  intros Hc.
  assert (Hev : forall e (b : bool),
             exists b' s',
               (Returned b,
                mkSys (set_events (_events (client s) ++ e) (client s))
                  (world s))
               = (Returned b', s') /\ advances s s').
  { intros e b. eexists _, _. split; [reflexivity|].
    split; [|exists []; apply sockOpsSince_same_log; reflexivity].
    constructor; cbn; try reflexivity; [eexists; reflexivity|].
    apply consistent_fields; reflexivity. }
  destruct pv; unfold onServerPacket; msimpl;
    try (apply (Hev [_] true)).
  - exists false, s. split; [reflexivity|apply advances_refl].
  - exists false, s. split; [reflexivity|apply advances_refl].
  - (* kick *)
    match goal with |- context [disconnect online ?x] =>
      destruct (disconnect_advances x) as (s' & E & A & _) end.
    rewrite E. exists true, s'. split; [reflexivity|].
    eapply advances_trans; [|exact A].
    split; [|exists []; apply sockOpsSince_same_log; reflexivity].
    constructor; cbn; try reflexivity; [eexists; reflexivity|].
    apply consistent_fields; reflexivity.
  - (* public key *)
    destruct (calculateClientSessionSodiumRTKeys online
                (_clientPSKeys (client s)) key) as [rt|]; cbn.
    + eexists true, _. split; [reflexivity|].
      split; [|exists []; apply sockOpsSince_same_log; reflexivity].
      constructor; cbn; try reflexivity;
        [exists []; now rewrite app_nil_r|].
      apply consistent_fields; reflexivity.
    + match goal with |- context [disconnect online ?x] =>
        destruct (disconnect_advances x) as (s' & E & A & _) end.
      rewrite E. exists false, s'. split; [reflexivity|].
      eapply advances_trans; [|exact A].
      split; [|exists []; apply sockOpsSince_same_log; reflexivity].
      constructor; cbn; try reflexivity;
        [exists []; now rewrite app_nil_r|].
      apply consistent_fields; reflexivity.
  - (* login success *)
    eexists true, _. split; [reflexivity|].
    split; [|exists []; apply sockOpsSince_same_log; reflexivity].
    constructor; cbn; try reflexivity; [eexists; reflexivity|].
    intros _. split; cbn; [intros _; exact Hc|].
    intros _. split; discriminate.
  - (* top scores and own score *)
    destruct ownScore; cbn.
    + rewrite <- app_assoc. apply (Hev [_; _] true).
    + apply (Hev [_] true).
Qed.

Lemma receiveDataFromServer_advances (s : Sys) :
  exists b s',
    receiveDataFromServer online s = (Returned b, s') /\ advances s s'.
Proof.
  unfold receiveDataFromServer. msimpl.
  destruct (_socketConnected (client s)) eqn:Hc; cbn.
  2: { exists false, s. split; [reflexivity|apply advances_refl]. }
  destruct (recvPacket_advances s) as (b & s1 & E & A & F).
  rewrite E. destruct b; cbn.
  2: { exists false, s1. split; [reflexivity|exact A]. }
  assert (Hc1 : _socketConnected (client s1) = true).
  { destruct (F eq_refl). congruence. }
  match goal with |- context [onServerPacket online ?pv s1] =>
    destruct (onServerPacket_advances pv s1 Hc1) as (b2 & s2 & E2 & A2) end.
  rewrite E2. exists b2, s2. split; [reflexivity|].
  eapply advances_trans; eassumption.
Qed.

Lemma sendHeartbeat_advances (s : Sys) :
  exists b s', sendHeartbeat online s = (Returned b, s') /\ advances s s'.
Proof.
  destruct (sendHeartbeat_spec s) as (b & s' & H).
  exists b, s'. split; [apply H|]. exact (sends_advances H).
Qed.

Lemma sendHeartbeatIfNecessary_advances (s : Sys) :
  exists b s',
    sendHeartbeatIfNecessary online s = (Returned b, s') /\ advances s s'.
Proof.
  unfold sendHeartbeatIfNecessary. msimpl.
  destruct (_socketConnected (client s)) eqn:Hc; cbn.
  2: { exists true, s. split; [reflexivity|apply advances_refl]. }
  set (s0 := mkSys (client s) (interact [] (world s))).
  assert (A0 : advances s s0).
  { split; [apply sendFrame_keeps; constructor; reflexivity|].
    exists []. unfold sockOpsSince. subst s0. cbn.
    now rewrite !app_nil_r. }
  fold s0.
  destruct (int64_wrap _ >? _).
  2: { exists true, s0. split; [reflexivity|exact A0]. }
  destruct (sendHeartbeat_advances s0) as (b & s1 & E & A1).
  rewrite E. destruct b; cbn.
  - exists true, s1. split; [reflexivity|].
    eapply advances_trans; eassumption.
  - destruct (disconnect_advances s1) as (s2 & E2 & A2 & _).
    rewrite E2. exists false, s2. split; [reflexivity|].
    eapply advances_trans; [exact A0|].
    eapply advances_trans; eassumption.
Qed.

Lemma update_advances (s : Sys) :
  exists s', update online s = (Returned tt, s') /\ advances s s'.
Proof.
  unfold update. msimpl.
  destruct (_socketConnected (client s)) eqn:Hc; cbn.
  2: { exists s. split; [reflexivity|apply advances_refl]. }
  unfold try_catch_all.
  destruct (sendHeartbeatIfNecessary_advances s) as (b1 & s1 & E1 & A1).
  rewrite E1.
  destruct (receiveDataFromServer_advances s1) as (b2 & s2 & E2 & A2).
  rewrite E2. exists s2. split; [reflexivity|].
  eapply advances_trans; eassumption.
Qed.

Lemma connect_advances (s : Sys) :
  exists b s', connect online s = (Returned b, s') /\ advances s s'.
Proof.
  destruct (_socketConnected (client s)) eqn:Hc.
  { unfold connect. msimpl. rewrite Hc. cbn.
    eexists false, _. split; [reflexivity|].
    split; [|exists []; apply sockOpsSince_same_log; reflexivity].
    constructor; cbn; try reflexivity; [exists []; now rewrite app_nil_r|].
    intros _. split; cbn; intuition discriminate. }
  unfold connect, initializeTcpSocket, failEvent, do_connect.
  msimpl. rewrite Hc. cbn. rewrite Hc. cbn.
  assert (Hfail : forall c : Client ProcessedScore,
             _state c = ConnectionError -> consistent c).
  { intros c H. split; rewrite H; intuition discriminate. }
  destruct (sock_connect (world s) (S (steps (world s)))) eqn:Est; cbn.
  2-5: eexists false, _; (split; [reflexivity|]);
       (split; [|eexists; unfold sockOpsSince; cbn;
                 rewrite <- app_assoc; reflexivity]);
       constructor; cbn; try reflexivity; [eexists; reflexivity|];
       intros _; apply Hfail; reflexivity.
  match goal with |- context [sendHeartbeat online ?x] =>
    set (s0 := x);
    destruct (sendHeartbeat_spec s0) as (b1 & s1 & E1 & F1 & o1 & O1 & _) end.
  assert (L0 : sockLog (world s0)
               = (sockLog (world s)
                  ++ [OpSetBlocking true;
                      OpConnect (_serverIp (client s))
                        (_serverPort (client s)) Socket.Done;
                      OpSetBlocking false])%list).
  { subst s0. cbn. rewrite <- !app_assoc. reflexivity. }
  rewrite E1. destruct b1; cbn.
  2: { eexists false, _. split; [reflexivity|].
       split.
       - destruct F1. subst s0. constructor; cbn in *; try assumption.
         + eexists. rewrite frame_events0. reflexivity.
         + intros _. apply Hfail. reflexivity.
       - eexists. unfold sockOpsSince in *. cbn. rewrite O1, L0.
         rewrite <- app_assoc. reflexivity. }
  destruct (sendPublicKey_spec s1) as (b2 & s2 & E2 & F2 & o2 & O2 & _).
  rewrite E2. destruct b2; cbn.
  2: { eexists false, _. split; [reflexivity|].
       split.
       - destruct F1, F2. subst s0. constructor; cbn in *; try congruence.
         + eexists. rewrite frame_events1, frame_events0. reflexivity.
         + intros _. apply Hfail. reflexivity.
       - eexists. unfold sockOpsSince in *. cbn. rewrite O2, O1, L0.
         rewrite <- !app_assoc. reflexivity. }
  eexists true, _. split; [reflexivity|].
  split.
  - destruct F1, F2. subst s0. constructor; cbn in *; try congruence.
    + eexists. rewrite frame_events1, frame_events0. reflexivity.
    + intros _. split; cbn; [intros _; congruence|discriminate].
  - eexists. unfold sockOpsSince in *. cbn. rewrite O2, O1, L0.
    rewrite <- !app_assoc. reflexivity.
Qed.

(** A request whose guard held ends in [sendEncrypted]. *)
Ltac ends_in_send :=
  match goal with
  | |- context [sendEncrypted online ?d ?x] =>
      let b := fresh "b" in
      let s' := fresh "s'" in
      let H := fresh "H" in
      destruct (sendEncrypted_spec d x) as (b & s' & H & _);
      rewrite (proj1 H); cbn
  end.

Lemma events_advances (s : Sys) (e : Event ProcessedScore) :
  advances s
    (mkSys (set_events (_events (client s) ++ [e]) (client s)) (world s)).
Proof.
  split; [|exists []; apply sockOpsSince_same_log; reflexivity].
  constructor; cbn; try reflexivity; [eexists; reflexivity|].
  apply consistent_fields; reflexivity.
Qed.

Lemma tryRegister_advances (name password : string) (s : Sys) :
  advances s (exec (tryRegister online name password) s).
Proof.
  unfold tryRegister, sendRegister. msimpl.
  destruct (connectedAndInState Connected (client s)); cbn;
    [|apply advances_refl].
  destruct (badCredentials name password); cbn; [apply events_advances|].
  destruct (_ticketSteamID (client s)); cbn; [|apply advances_refl].
  ends_in_send. exact (sends_advances H).
Qed.

Lemma tryLogin_advances (name password : string) (s : Sys) :
  advances s (exec (tryLogin online name password) s).
Proof.
  unfold tryLogin, sendLogin. msimpl.
  destruct (connectedAndInState Connected (client s)); cbn;
    [|apply advances_refl].
  destruct (badCredentials name password); cbn; [apply events_advances|].
  destruct (_ticketSteamID (client s)); cbn; [|apply advances_refl].
  ends_in_send. exact (sends_advances H).
Qed.

Lemma tryDeleteAccount_advances (password : string) (s : Sys) :
  advances s (exec (tryDeleteAccount online password) s).
Proof.
  unfold tryDeleteAccount, sendDeleteAccount. msimpl.
  destruct (connectedAndInState Connected (client s)); cbn;
    [|apply advances_refl].
  destruct (_ticketSteamID (client s)); cbn; [|apply advances_refl].
  ends_in_send. exact (sends_advances H).
Qed.

Lemma tryLogoutFromServer_advances (s : Sys) :
  advances s (exec (tryLogoutFromServer online) s).
Proof.
  unfold tryLogoutFromServer, sendLogout. msimpl.
  destruct (connectedAndInState LoggedIn (client s)) eqn:G; cbn;
    [|apply advances_refl].
  assert (Hc : _socketConnected (client s) = true).
  { unfold connectedAndInState in G. apply andb_true_iff in G. apply G. }
  set (loggedOut :=
         mkSys (set_loginName None
                  (set_loginToken None (set_state Connected (client s))))
               (note_state Connected (world s))).
  assert (A : advances s loggedOut).
  { split; [|exists []; apply sockOpsSince_same_log; reflexivity].
    constructor; cbn; try reflexivity; [exists []; now rewrite app_nil_r|].
    intros _. split; cbn; [intros _; exact Hc|discriminate]. }
  destruct (_ticketSteamID (client s)); cbn; [|exact A].
  fold loggedOut. ends_in_send.
  eapply advances_trans; [exact A|exact (sends_advances H)].
Qed.

(** The five requests that read [_loginToken]. *)
Ltac token_request_advances :=
  msimpl;
  match goal with
  | |- context [connectedAndInState LoggedIn ?c] =>
      destruct (connectedAndInState LoggedIn c); cbn; [|apply advances_refl]
  end;
  match goal with
  | |- context [_loginToken ?c] =>
      destruct (_loginToken c); cbn; [|apply advances_refl]
  end;
  ends_in_send;
  match goal with H : sends _ _ _ _ |- _ => exact (sends_advances H) end.

Lemma tryRequestTopScores_advances (levelValidator : string) (s : Sys) :
  advances s (exec (tryRequestTopScores online levelValidator) s).
Proof.
  unfold tryRequestTopScores, sendRequestTopScores. token_request_advances.
Qed.

Lemma trySendReplay_advances (replayFile : replay_file) (s : Sys) :
  advances s (exec (trySendReplay online replayFile) s).
Proof. unfold trySendReplay, sendReplay. token_request_advances. Qed.

Lemma tryRequestOwnScore_advances (levelValidator : string) (s : Sys) :
  advances s (exec (tryRequestOwnScore online levelValidator) s).
Proof.
  unfold tryRequestOwnScore, sendRequestOwnScore. token_request_advances.
Qed.

Lemma tryRequestTopScoresAndOwnScore_advances
    (levelValidator : string) (s : Sys) :
  advances s (exec (tryRequestTopScoresAndOwnScore online levelValidator) s).
Proof.
  unfold tryRequestTopScoresAndOwnScore, sendRequestTopScoresAndOwnScore.
  token_request_advances.
Qed.

Lemma trySendStartedGame_advances (levelValidator : string) (s : Sys) :
  advances s (exec (trySendStartedGame online levelValidator) s).
Proof.
  unfold trySendStartedGame, sendStartedGame. token_request_advances.
Qed.

Lemma exec_then_ret {A} (m : M ProcessedScore A) (s : Sys) :
  exec (m ;; ret tt) s = exec m s.
Proof.
  unfold exec, bind, ret. destruct (m s) as [[a|e] s']; reflexivity.
Qed.

(** Every public member but [pollEvent] advances the client. *)
Lemma call_advances (a : ApiCall replay_file) (s : Sys) :
  isPollEvent a = false -> advances s (exec (call online a) s).
Proof.
  intros Ha. destruct a; try discriminate Ha; unfold call;
    rewrite ?exec_then_ret.
  - destruct (connect_advances s) as (b & s' & E & A).
    unfold exec. rewrite E. exact A.
  - destruct (disconnect_advances s) as (s' & E & A & _).
    unfold exec. rewrite E. exact A.
  - destruct (update_advances s) as (s' & E & A).
    unfold exec. rewrite E. exact A.
  - apply tryRegister_advances.
  - apply tryLogin_advances.
  - apply tryLogoutFromServer_advances.
  - apply tryDeleteAccount_advances.
  - apply tryRequestTopScores_advances.
  - apply trySendReplay_advances.
  - apply tryRequestOwnScore_advances.
  - apply tryRequestTopScoresAndOwnScore_advances.
  - apply trySendStartedGame_advances.
  - apply advances_refl.
  - apply advances_refl.
Qed.

(** [pollEvent] only takes the first event away. *)
Lemma pollEvent_exec (s : Sys) :
  exec pollEvent s
  = mkSys (set_events (tl (_events (client s))) (client s)) (world s).
Proof.
  unfold pollEvent. msimpl. destruct s as [c w]. cbn.
  destruct (_events c) eqn:E; cbn; [|reflexivity].
  destruct c; cbn in *. rewrite E. reflexivity.
Qed.

(** What every public member keeps, [pollEvent] included. *)
Lemma call_keeps (a : ApiCall replay_file) (s : Sys) :
  _ticketSteamID (client (exec (call online a) s))
  = _ticketSteamID (client s)
  /\ _clientPSKeys (client (exec (call online a) s))
     = _clientPSKeys (client s)
  /\ (consistent (client s) -> consistent (client (exec (call online a) s))).
Proof.
  destruct (isPollEvent a) eqn:Ha.
  - destruct a; try discriminate Ha. unfold call.
    rewrite exec_then_ret, pollEvent_exec. cbn.
    split; [reflexivity|]. split; [reflexivity|].
    apply consistent_fields; reflexivity.
  - destruct (call_advances a s Ha) as [[] _]. auto.
Qed.

Lemma calls_keeps (l : list (ApiCall replay_file)) (s : Sys) :
  _ticketSteamID (client (calls online l s)) = _ticketSteamID (client s)
  /\ _clientPSKeys (client (calls online l s)) = _clientPSKeys (client s)
  /\ (consistent (client s) -> consistent (client (calls online l s))).
Proof.
  revert s. induction l as [|a l IH]; intros s; cbn [calls].
  - auto.
  - destruct (call_keeps a s) as (T1 & P1 & C1).
    destruct (IH (exec (call online a) s)) as (T2 & P2 & C2).
    split; [congruence|]. split; [congruence|]. auto.
Qed.

(** The constructor: what it leaves behind. *)
Lemma initializeTicketSteamID_ticket (s : Sys) :
  exists b s',
    initializeTicketSteamID s = (Returned b, s')
    /\ _socketConnected (client s') = _socketConnected (client s)
    /\ _state (client s') = _state (client s)
    /\ (b = true -> _ticketSteamID (client s') <> None).
Proof.
  unfold initializeTicketSteamID. msimpl.
  destruct (waitTicketResponse_spec 0 s) as (C & _ & _).
  destruct (waitTicketResponse 0 s) as [responded s1]. cbn in *.
  destruct responded; cbn.
  2: { exists false, s1. rewrite C. repeat split; discriminate. }
  destruct (steam_got_ticket (world s1)); cbn.
  2: { exists false, s1. rewrite C. repeat split; discriminate. }
  destruct (steam_ticket_id (world s1)); cbn.
  - eexists true, _. split; [reflexivity|]. cbn. rewrite C.
    repeat split; discriminate.
  - exists false, s1. rewrite C. repeat split; discriminate.
Qed.

Lemma HexagonClient_new_spec (w : World) :
  consistent (client (HexagonClient_new online w))
  /\ (_state (client (HexagonClient_new online w)) <> InitError ->
      _ticketSteamID (client (HexagonClient_new online w)) <> None).
Proof.
  unfold HexagonClient_new, HexagonClient_body. msimpl.
  assert (HI : forall c : Client ProcessedScore,
             _state c = InitError -> consistent c).
  { intros c H. split; rewrite H; intuition discriminate. }
  destruct (IpAddress_isNone (Config_getServerIp w)); cbn.
  { split; [apply HI; reflexivity|]. intros H. now elim H. }
  match goal with |- context [initializeTicketSteamID ?x] =>
    destruct (initializeTicketSteamID_ticket x)
      as (b & s1 & E & Hc & Hs & Ht) end.
  rewrite E. cbn in *. destruct b; cbn.
  - destruct (connect_advances s1) as (b2 & s2 & E2 & [[T _ _ C] _]).
    rewrite E2. cbn. split.
    + apply C. apply Disconnected_consistent. exact Hs.
    + intros _. rewrite T. apply Ht. reflexivity.
  - split; [apply HI; reflexivity|]. intros H. now elim H.
Qed.

(** ** Invariants of the client *)

(** X11. Whatever the environment does and whatever the application
    calls, the client stays consistent: in the states Connected and
    LoggedIn the socket is marked as connected, and in the state LoggedIn
    the login token and the login name are there. *)
Theorem consistent_after_any_calls
    (w : World) (l : list (ApiCall replay_file)) :
  let c := client (calls online l (HexagonClient_new online w)) in
  (_state c = Connected \/ _state c = LoggedIn -> _socketConnected c = true)
  /\ (_state c = LoggedIn -> _loginToken c <> None /\ _loginName c <> None).
Proof.
  cbn zeta.
  destruct (calls_keeps l (HexagonClient_new online w)) as (_ & _ & C).
  apply C. apply HexagonClient_new_spec.
Qed.

(** On a consistent client, a request that reads [_loginToken] returns. *)
Lemma token_request_returns
    (f : Z -> CTSPacket replay_file) (s : Sys) :
  consistent (client s) ->
  exists b s',
    (c <- get_client ;;
     if negb (connectedAndInState LoggedIn c) then fail
     else loginToken <- value (_loginToken c) ;;
          sendEncrypted online (f loginToken)) s
    = (Returned b, s').
Proof.
  intros [_ C]. msimpl.
  destruct (connectedAndInState LoggedIn (client s)) eqn:G; cbn;
    [|eexists _, _; reflexivity].
  unfold connectedAndInState in G. apply andb_true_iff in G.
  destruct G as [_ G]. apply State_eqb_eq in G.
  destruct (C G) as [Ht _].
  destruct (_loginToken (client s)) as [t|]; [|now elim Ht]. cbn.
  destruct (sendEncrypted_spec (f t) s) as (b & s' & (E & _) & _).
  exists b, s'. exact E.
Qed.

(** X12. The assertions on [_loginToken] hold: on a client that was
    constructed and then driven through any calls, in any world, none of
    the five requests that read the login token throws; each returns. *)
Theorem token_requests_never_throw
    (w : World) (l : list (ApiCall replay_file))
    (levelValidator : string) (replayFile : replay_file) :
  let s := calls online l (HexagonClient_new online w) in
  (exists b s', tryRequestTopScores online levelValidator s = (Returned b, s'))
  /\ (exists b s', trySendReplay online replayFile s = (Returned b, s'))
  /\ (exists b s', tryRequestOwnScore online levelValidator s = (Returned b, s'))
  /\ (exists b s',
        tryRequestTopScoresAndOwnScore online levelValidator s
        = (Returned b, s'))
  /\ (exists b s', trySendStartedGame online levelValidator s = (Returned b, s')).
Proof.
  cbn zeta.
  assert (C : consistent (client (calls online l (HexagonClient_new online w)))).
  { destruct (calls_keeps l (HexagonClient_new online w)) as (_ & _ & C).
    apply C. apply HexagonClient_new_spec. }
  split; [exact (token_request_returns
                   (fun t => CTSPRequestTopScores t levelValidator) _ C)|].
  split; [exact (token_request_returns
                   (fun t => CTSPReplay t replayFile) _ C)|].
  split; [exact (token_request_returns
                   (fun t => CTSPRequestOwnScore t levelValidator) _ C)|].
  split; [exact (token_request_returns
                   (fun t => CTSPRequestTopScoresAndOwnScore t levelValidator) _ C)|].
  exact (token_request_returns
           (fun t => CTSPStartedGame t levelValidator) _ C).
Qed.

#[local] Arguments trySendReplay : simpl never.

(** X13. The submission of the replay at the death of the player
    ([HexagonGame::death]) never throws, on a client that was constructed
    and then driven through any calls; and unless the level is scored, the
    game official and the client LoggedIn, it leaves the client and the
    world as they were. *)
Theorem death_sendReplay_safe
    (w : World) (l : list (ApiCall replay_file))
    (unscored official : bool) (replayFile : replay_file) :
  let s := calls online l (HexagonClient_new online w) in
  exists s',
    death_sendReplay online unscored official replayFile s = (Returned tt, s')
    /\ (unscored = true \/ official = false
        \/ _state (client s) <> LoggedIn -> s' = s).
Proof.
  cbn zeta.
  set (s := calls online l (HexagonClient_new online w)).
  assert (C : consistent (client s)).
  { destruct (calls_keeps l (HexagonClient_new online w)) as (_ & _ & C).
    apply C. apply HexagonClient_new_spec. }
  unfold death_sendReplay, getState.
  destruct unscored; cbn.
  { exists s. split; [reflexivity|auto]. }
  msimpl.
  destruct (State_eqb (_state (client s)) LoggedIn) eqn:G; cbn.
  2: { exists s. split; [reflexivity|auto]. }
  destruct official; cbn.
  2: { exists s. split; [reflexivity|auto]. }
  destruct (token_request_returns (fun t => CTSPReplay t replayFile) _ C)
    as (b & s' & E).
  change (trySendReplay online replayFile s = (Returned b, s')) in E.
  rewrite E. exists s'. split; [reflexivity|].
  apply State_eqb_eq in G.
  intros [H | [H | H]]; try discriminate H. now elim H.
Qed.

(** X14. No public member but [pollEvent] removes, reorders or changes an
    event that is queued: after the call the queue is the one before it,
    followed by what the call has appended. *)
Theorem events_only_appended (a : ApiCall replay_file) (s : Sys) :
  isPollEvent a = false ->
  exists new,
    _events (client (exec (call online a) s))
    = (_events (client s) ++ new)%list.
Proof.
  intros Ha. destruct (call_advances a s Ha) as [[] _]. assumption.
Qed.

(** X15. No sequence of public calls changes the Steam ID or the key pair
    the client was constructed with. *)
Theorem steamID_and_keys_fixed (l : list (ApiCall replay_file)) (s : Sys) :
  _ticketSteamID (client (calls online l s)) = _ticketSteamID (client s)
  /\ _clientPSKeys (client (calls online l s)) = _clientPSKeys (client s).
Proof.
  destruct (calls_keeps l s) as (T & P & _). auto.
Qed.

(** On a client with a Steam ID, a request that reads it returns. *)
Lemma ticket_request_returns
    (f : Z -> CTSPacket replay_file) (c : Client ProcessedScore) (s : Sys) :
  _ticketSteamID c <> None ->
  exists b s',
    (steamId <- value (_ticketSteamID c) ;; sendEncrypted online (f steamId)) s
    = (Returned b, s').
Proof.
  intros Ht. destruct (_ticketSteamID c) as [t|]; [|now elim Ht].
  msimpl.
  destruct (sendEncrypted_spec (f t) s) as (b & s' & (E & _) & _).
  exists b, s'. exact E.
Qed.

(** X16. The assertions on [_ticketSteamID] hold on a client whose
    construction did not end in InitError: through any calls, in any
    world, the Steam ID stays there, and [tryRegister], [tryLogin],
    [tryDeleteAccount] and [tryLogoutFromServer] return and do not
    throw. *)
Theorem constructed_requests_never_throw
    (w : World) (l : list (ApiCall replay_file)) (name password : string) :
  _state (client (HexagonClient_new online w)) <> InitError ->
  let s := calls online l (HexagonClient_new online w) in
  _ticketSteamID (client s) <> None
  /\ (exists b s', tryRegister online name password s = (Returned b, s'))
  /\ (exists b s', tryLogin online name password s = (Returned b, s'))
  /\ (exists b s', tryDeleteAccount online password s = (Returned b, s'))
  /\ (exists b s', tryLogoutFromServer online s = (Returned b, s')).
Proof.
  intros Hnew. cbn zeta.
  set (s := calls online l (HexagonClient_new online w)).
  assert (Ht : _ticketSteamID (client s) <> None).
  { destruct (calls_keeps l (HexagonClient_new online w)) as (T & _ & _).
    subst s. rewrite T. apply HexagonClient_new_spec. exact Hnew. }
  split; [exact Ht|].
  split.
  { unfold tryRegister, sendRegister. msimpl.
    destruct (connectedAndInState Connected (client s)); cbn;
      [|eexists _, _; reflexivity].
    destruct (badCredentials name password); cbn;
      [eexists _, _; reflexivity|].
    exact (ticket_request_returns
             (fun i => CTSPRegister i name (hashPwd online password)) _ s Ht). }
  split.
  { unfold tryLogin, sendLogin. msimpl.
    destruct (connectedAndInState Connected (client s)); cbn;
      [|eexists _, _; reflexivity].
    destruct (badCredentials name password); cbn;
      [eexists _, _; reflexivity|].
    exact (ticket_request_returns
             (fun i => CTSPLogin i name (hashPwd online password)) _ s Ht). }
  split.
  { unfold tryDeleteAccount, sendDeleteAccount. msimpl.
    destruct (connectedAndInState Connected (client s)); cbn;
      [|eexists _, _; reflexivity].
    exact (ticket_request_returns
             (fun i => CTSPDeleteAccount i (hashPwd online password)) _ s Ht). }
  unfold tryLogoutFromServer, sendLogout. msimpl.
  destruct (connectedAndInState LoggedIn (client s)); cbn;
    [|eexists _, _; reflexivity].
  exact (ticket_request_returns (fun i => CTSPLogout i) _ _ Ht).
Qed.

(** ** The tick *)

(** X17. A tick with nothing to do: on a connected client whose heartbeat
    is not due (the difference of the two counts of nanoseconds, as a
    signed 64-bit integer, is at most 45 seconds), when the socket has
    nothing to deliver (NotReady), [update] reads the clock once, calls the
    socket once, to receive, and changes nothing in the client but the
    packet buffer: no event, the same state, keys and login session, no
    heartbeat. *)
Theorem update_nothing_to_read (s : Sys) :
  _socketConnected (client s) = true ->
  int64_wrap
    (clock_now (world s) (steps (world s)) - _lastHeartbeatTime (client s))
  <= heatbeatInterval ->
  fst (sock_receive (world s) (S (steps (world s)))) = Socket.NotReady ->
  let p := snd (sock_receive (world s) (S (steps (world s)))) in
  update online s
  = (Returned tt,
     mkSys (set_packetBuffer p (client s))
       (interact [OpReceive Socket.NotReady p] (interact [] (world s)))).
Proof.
  intros Hc Hdue Hnr. cbn zeta.
  unfold update, sendHeartbeatIfNecessary, receiveDataFromServer,
    recvPacket, try_catch_all.
  msimpl. rewrite Hc. cbn. rewrite Hc. cbn.
  destruct (Z.gtb_spec
              (int64_wrap
                 (clock_now (world s) (steps (world s))
                  - _lastHeartbeatTime (client s))) 45000000000) as [Hgt|_].
  { unfold heatbeatInterval in Hdue. lia. }
  cbn. rewrite Hc. cbn.
  rewrite recvPacketRecursive_round.
  destruct (Z_gt_dec 0 5) as [Hgt|_]; [lia|].
  unfold do_receive. cbn. rewrite Hnr. reflexivity.
Qed.

(** The first thing [sendHeartbeat] does to the socket of a connected
    client is to send the heartbeat. *)
Lemma sendHeartbeat_first (s : Sys) :
  _socketConnected (client s) = true ->
  exists b s' st ops,
    sendHeartbeat online s = (Returned b, s')
    /\ advances s s'
    /\ sockOpsSince s s'
         (OpSend (makeClientToServerPacket online CTSPHeartbeat) st :: ops).
Proof.
  intros Hc.
  destruct (sendHeartbeat_advances s) as (b & s' & E & A).
  exists b, s'.
  revert E. unfold sendHeartbeat, sendUnencrypted. msimpl.
  rewrite Hc. cbn.
  match goal with |- context [sendPacket ?x] =>
    destruct (sendPacketRecursive_trace 0 x)
      as (b1 & w1 & k & rest & E1 & L1 & _ & O) end.
  unfold sendPacket. rewrite E1. cbn in L1.
  assert (Hne : exists st tl, (repeat Socket.Partial k ++ rest)%list = st :: tl).
  { destruct k; cbn; [|eauto].
    destruct rest; [|eauto].
    destruct O as [(O & _) | [(st & O & _) | (_ & O & _)]];
      try discriminate O. }
  destruct Hne as (st & tl & Hne). rewrite Hne in L1. cbn in L1.
  destruct b1; cbn; intros E; injection E as <- <-;
    exists st, (map (OpSend (makeClientToServerPacket online CTSPHeartbeat)) tl);
    (split; [reflexivity|]); (split; [exact A|]);
    unfold sockOpsSince; cbn; rewrite ?app_nil_r; exact L1.
Qed.

(** X18. A due heartbeat goes first: on a connected client whose last
    heartbeat is more than 45 seconds old (by the difference of the two
    counts of nanoseconds, as a signed 64-bit integer), the first thing
    [update] does to the socket is to send the heartbeat packet, before any
    receive. *)
Theorem update_sends_due_heartbeat_first (s : Sys) :
  _socketConnected (client s) = true ->
  int64_wrap
    (clock_now (world s) (steps (world s)) - _lastHeartbeatTime (client s))
  > heatbeatInterval ->
  exists s' st ops,
    update online s = (Returned tt, s')
    /\ sockOpsSince s s'
         (OpSend (makeClientToServerPacket online CTSPHeartbeat) st :: ops).
Proof.
  intros Hc Hdue.
  unfold update, sendHeartbeatIfNecessary, try_catch_all.
  msimpl. rewrite Hc. cbn. rewrite Hc. cbn.
  destruct (Z.gtb_spec
              (int64_wrap
                 (clock_now (world s) (steps (world s))
                  - _lastHeartbeatTime (client s))) 45000000000) as [_|Hle].
  2: { unfold heatbeatInterval in Hdue. lia. }
  set (s0 := mkSys (client s) (interact [] (world s))).
  destruct (sendHeartbeat_first s0 Hc) as (b & s1 & st & ops & E & _ & O).
  rewrite E.
  assert (O0 : sockOpsSince s s1
                 (OpSend (makeClientToServerPacket online CTSPHeartbeat) st
                  :: ops)).
  { unfold sockOpsSince in *. rewrite O. subst s0. cbn.
    now rewrite app_nil_r. }
  assert (Hrest : forall s2, (exists o2, sockOpsSince s1 s2 o2) ->
            exists s' st ops,
              (let (o, s'0) :=
                 let (o, s'0) := receiveDataFromServer online s2 in
                 match o with
                 | Returned _ => (Returned tt, s'0)
                 | Thrown e => (Thrown e, s'0)
                 end in
               match o with
               | Returned _ => (Returned tt, s'0)
               | Thrown _ => (Returned tt, s'0)
               end) = (Returned tt, s')
              /\ sockOpsSince s s'
                   (OpSend (makeClientToServerPacket online CTSPHeartbeat) st
                    :: ops)).
  { intros s2 (o2 & O2).
    destruct (receiveDataFromServer_advances s2) as (b3 & s3 & E3 & _ & o3 & O3).
    rewrite E3. exists s3, st, (ops ++ o2 ++ o3)%list.
    split; [reflexivity|].
    unfold sockOpsSince in *. rewrite O3, O2, O0.
    rewrite <- !app_assoc. reflexivity. }
  destruct b; cbn.
  - apply Hrest. exists []. apply app_nil_sockOps.
  - destruct (disconnect_advances s1) as (s2 & E2 & (_ & o2 & O2) & _).
    rewrite E2. cbn. apply Hrest. exists o2. exact O2.
Qed.

(** X19. A heartbeat that cannot be sent costs the connection: on a
    connected client whose heartbeat is due (the difference of the two
    counts of nanoseconds, as a signed 64-bit integer, exceeds 45
    seconds), if the socket answers the send with NotReady, Error or
    Disconnected, [update] disconnects the client (state Disconnected,
    socket not connected) and does not try to receive. *)
Theorem failed_heartbeat_disconnects (s : Sys) :
  _socketConnected (client s) = true ->
  int64_wrap
    (clock_now (world s) (steps (world s)) - _lastHeartbeatTime (client s))
  > heatbeatInterval ->
  let st :=
    sock_send (world s) (S (steps (world s)))
      (makeClientToServerPacket online CTSPHeartbeat) in
  st <> Socket.Done ->
  st <> Socket.Partial ->
  exists s' ops,
    update online s = (Returned tt, s')
    /\ _state (client s') = Disconnected
    /\ _socketConnected (client s') = false
    /\ sockOpsSince s s'
         (OpSend (makeClientToServerPacket online CTSPHeartbeat) st :: ops)
    /\ forallb (fun o => negb (isReceive o)) ops = true.
Proof.
  intros Hc Hdue st Hnd Hnp.
  set (s1 := mkSys
               (set_packetBuffer
                  (makeClientToServerPacket online CTSPHeartbeat) (client s))
               (interact
                  [OpSend (makeClientToServerPacket online CTSPHeartbeat) st]
                  (interact [] (world s)))).
  destruct (disconnect_spec s1)
    as (s2 & dops & E & Hst & Hc2 & _ & _ & O & F & _).
  assert (H1 : sendHeartbeatIfNecessary online s = (Returned false, s2)).
  { unfold sendHeartbeatIfNecessary, sendHeartbeat, sendUnencrypted,
      sendPacket.
    msimpl. rewrite Hc. cbn.
    destruct (Z.gtb_spec
                (int64_wrap
                   (clock_now (world s) (steps (world s))
                    - _lastHeartbeatTime (client s))) 45000000000)
      as [_|Hle].
    2: { unfold heatbeatInterval in Hdue. lia. }
    cbn. rewrite Hc. cbn.
    rewrite sendPacketRecursive_round.
    destruct (Z_gt_dec 0 5) as [Hgt|_]; [lia|].
    unfold do_send. cbn. fold st. fold s1.
    destruct st eqn:Est; try (now elim Hnd); try (now elim Hnp);
      cbn; fold s1; rewrite E; reflexivity. }
  assert (H2 : receiveDataFromServer online s2 = (Returned false, s2)).
  { unfold receiveDataFromServer. msimpl. rewrite Hc2. reflexivity. }
  exists s2, (OpSetBlocking true :: dops ++ [OpDisconnect])%list.
  split.
  { unfold update. msimpl. rewrite Hc. cbn.
    unfold try_catch_all. rewrite H1, H2. reflexivity. }
  split; [exact Hst|]. split; [exact Hc2|].
  split.
  - unfold sockOpsSince in *. rewrite O. subst s1. cbn.
    rewrite app_nil_r, <- app_assoc. reflexivity.
  - cbn. rewrite forallb_app. cbn. rewrite andb_true_r.
    clear - F. induction dops as [|o dops IH]; cbn in *; [reflexivity|].
    apply andb_true_iff in F. destruct F as [F1 F2].
    rewrite (IH F2), andb_true_r. destruct o; cbn in *; congruence.
Qed.

(** ** Packets of the server *)

(** X20. A kick: when a connected client receives a packet that decodes
    to [STCPKick], [receiveDataFromServer] returns [true], exactly one
    [EKicked] is appended to the events, and the client is disconnected
    (state Disconnected, socket not connected). *)
Theorem kick_disconnects (s s1 : Sys) :
  _socketConnected (client s) = true ->
  recvPacket online s = (Returned true, s1) ->
  decodeServerToClientPacket online
    (option_map keyReceive (_clientRTKeys (client s1)))
    (_packetBuffer (client s1))
  = STCPKick ->
  exists s',
    receiveDataFromServer online s = (Returned true, s')
    /\ _state (client s') = Disconnected
    /\ _socketConnected (client s') = false
    /\ _events (client s') = (_events (client s) ++ [EKicked])%list.
Proof.
  intros Hc Hrecv Hdec.
  assert (Hev : _events (client s1) = _events (client s)).
  { destruct (recvPacket_advances s) as (b & s' & E & _ & F).
    rewrite Hrecv in E. injection E as <- <-.
    destruct (F eq_refl). assumption. }
  unfold receiveDataFromServer. msimpl. rewrite Hc. cbn.
  rewrite Hrecv. cbn. rewrite Hdec.
  unfold onServerPacket. msimpl.
  match goal with |- context [disconnect online ?x] =>
    destruct (disconnect_spec x) as (s' & ops & E & Hst & Hc' & D & _) end.
  rewrite E. exists s'. split; [reflexivity|].
  split; [exact Hst|]. split; [exact Hc'|].
  destruct D. cbn in *. congruence.
Qed.

(** X21. The public key of the server: its handler stores the key and
    replaces the session keys by those derived from the key pair of the
    client and the received key, whatever keys were there; no event is
    appended. If the derivation succeeds the handler returns [true], the
    state is unchanged, and handling the same key again changes nothing;
    if it fails, the client is left without session keys, disconnected,
    and the handler returns [false]. *)
Theorem publicKey_replaces_session_keys (s : Sys) (key : SodiumKey) :
  let derived :=
    calculateClientSessionSodiumRTKeys online (_clientPSKeys (client s)) key in
  let handler := onServerPacket online (STCPPublicKey key) in
  let s' := exec handler s in
  _serverPublicKey (client s') = Some key
  /\ _clientRTKeys (client s') = derived
  /\ _events (client s') = _events (client s)
  /\ match derived with
     | Some _ =>
         result handler s = Returned true
         /\ _state (client s') = _state (client s)
         /\ world s' = world s
         /\ handler s' = (Returned true, s')
     | None =>
         result handler s = Returned false
         /\ _state (client s') = Disconnected
         /\ _socketConnected (client s') = false
     end.
Proof.
  cbn zeta. unfold onServerPacket. msimpl.
  destruct (calculateClientSessionSodiumRTKeys online
              (_clientPSKeys (client s)) key) as [rt|] eqn:Hd; cbn.
  - rewrite Hd. cbn. repeat split.
  - match goal with |- context [disconnect online ?x] =>
      destruct (disconnect_spec x) as (s' & ops & E & Hst & Hc' & D & _) end.
    rewrite E. cbn. destruct D. cbn in *.
    repeat split; assumption.
Qed.

(** ** A client that is not connected *)

Lemma unconnected_call (a : ApiCall replay_file) (s : Sys) :
  isRequest a = true \/ a = Call_update ->
  _socketConnected (client s) = false ->
  call online a s = (Returned tt, s).
Proof.
  intros Ha Hc.
  assert (G : forall st, connectedAndInState st (client s) = false).
  { intros st. apply connectedAndInState_false. left. exact Hc. }
  destruct Ha as [Ha | ->].
  - destruct a; try discriminate Ha; unfold call.
    + unfold tryRegister. msimpl. rewrite G. reflexivity.
    + unfold tryLogin. msimpl. rewrite G. reflexivity.
    + unfold tryLogoutFromServer. msimpl. rewrite G. reflexivity.
    + unfold tryDeleteAccount. msimpl. rewrite G. reflexivity.
    + unfold tryRequestTopScores. msimpl. rewrite G. reflexivity.
    + unfold trySendReplay. msimpl. rewrite G. reflexivity.
    + unfold tryRequestOwnScore. msimpl. rewrite G. reflexivity.
    + unfold tryRequestTopScoresAndOwnScore. msimpl. rewrite G. reflexivity.
    + unfold trySendStartedGame. msimpl. rewrite G. reflexivity.
  - unfold call, update. msimpl. rewrite Hc. reflexivity.
Qed.

(** X22. After [disconnect], from any state, the nine requests and
    [update] do nothing until [connect] is called: each returns leaving
    the client and the world as [disconnect] left them. *)
Theorem after_disconnect_nothing_happens
    (a : ApiCall replay_file) (s : Sys) :
  isRequest a = true \/ a = Call_update ->
  let s' := exec (disconnect online) s in
  call online a s' = (Returned tt, s').
Proof.
  intros Ha. cbn zeta. apply unconnected_call; [exact Ha|].
  destruct (disconnect_spec s) as (s' & ops & E & _ & Hc & _).
  unfold exec. rewrite E. exact Hc.
Qed.

(** ** More on [disconnect] and [connect] *)

(** X23. Off the network, [disconnect] says nothing: in any state other
    than Connected and LoggedIn (Disconnected, InitError, Connecting,
    ConnectionError), even with a connected socket, it sends neither a
    logout nor a disconnect notice; it makes the socket blocking, closes
    it, and leaves the client Disconnected with the events it had. *)
Theorem disconnect_off_network_sends_nothing (s : Sys) :
  _state (client s) <> Connected ->
  _state (client s) <> LoggedIn ->
  disconnect online s
  = (Returned tt,
     mkSys (set_state Disconnected (set_socketConnected false (client s)))
       (note_state Disconnected
          (interact [OpDisconnect]
             (interact [OpSetBlocking true] (world s))))).
Proof.
  intros H1 H2. unfold disconnect. msimpl.
  pose proof (State_eqb_neq H1) as E1.
  pose proof (State_eqb_neq H2) as E2.
  repeat (try rewrite E1; try rewrite E2; msimpl).
  reflexivity.
Qed.

Lemma sendPacket_sends_at_least_once (s : Sys) :
  exists b w' st statuses,
    sendPacket s = (Returned b, mkSys (client s) w')
    /\ stateLog w' = stateLog (world s)
    /\ sockLog w'
       = (sockLog (world s)
          ++ map (OpSend (_packetBuffer (client s))) (st :: statuses))%list.
Proof.
  destruct (sendPacketRecursive_trace 0 s)
    as (b & w' & k & rest & E & L & _ & O).
  destruct (sendPacketRecursive_spec 0 s) as (b0 & w0 & E0 & T0 & _).
  unfold sendPacket. rewrite E in E0. injection E0 as <- <-.
  assert (Hne : exists st tl, (repeat Socket.Partial k ++ rest)%list = st :: tl).
  { destruct k; cbn; [|eauto].
    destruct rest; [|eauto].
    destruct O as [(O & _) | [(st & O & _) | (_ & O & _)]];
      try discriminate O. }
  destruct Hne as (st & tl & Hne). rewrite Hne in L.
  exists b, w', st, tl. auto.
Qed.

(** X24. Leaving politely: on a connected client in state Connected,
    [disconnect] makes the socket blocking, sends the disconnect notice (as
    often as the socket asks for, and at least once), and closes the
    socket last; the client ends up Disconnected, whether or not the notice
    went through. *)
Theorem disconnect_sends_notice (s : Sys) :
  _socketConnected (client s) = true ->
  _state (client s) = Connected ->
  exists s' st statuses,
    disconnect online s = (Returned tt, s')
    /\ _state (client s') = Disconnected
    /\ _socketConnected (client s') = false
    /\ sockOpsSince s s'
         (OpSetBlocking true
          :: map (OpSend (makeClientToServerPacket online CTSPDisconnect))
               (st :: statuses)
          ++ [OpDisconnect]).
Proof.
  intros Hc Hs. unfold disconnect, sendDisconnect, sendUnencrypted.
  msimpl. rewrite Hs. msimpl. rewrite Hs. msimpl. rewrite Hc. msimpl.
  match goal with |- context [sendPacket ?x] =>
    destruct (sendPacket_sends_at_least_once x)
      as (b & w' & st & sts & E & _ & L) end.
  rewrite E. cbn in *.
  eexists _, st, sts. split; [reflexivity|]. cbn.
  split; [reflexivity|]. split; [reflexivity|].
  unfold sockOpsSince. cbn. rewrite L, <- !app_assoc. reflexivity.
Qed.



(** X26. Reconnecting: from any state, [disconnect] followed by [connect]
    is a full connection attempt; it ends in Connected or ConnectionError
    with exactly one more event, [EConnectionSuccess] or an
    [EConnectionFailure], than before. *)
Theorem reconnect_after_disconnect (s : Sys) :
  exists b s',
    connect online (exec (disconnect online) s) = (Returned b, s')
    /\ if b
       then _state (client s') = Connected
            /\ _events (client s')
               = (_events (client s) ++ [EConnectionSuccess])%list
       else _state (client s') = ConnectionError
            /\ exists reason,
                 _events (client s')
                 = (_events (client s) ++ [EConnectionFailure reason])%list.
Proof.
  destruct (disconnect_spec s) as (s1 & ops & E & _ & Hc & D & _).
  unfold exec. rewrite E. cbn.
  destruct (connect_spec s1 Hc) as (b & s' & E2 & P).
  exists b, s'. split; [exact E2|].
  destruct D. destruct b.
  - destruct P as (P1 & _ & P3). split; [exact P1|]. congruence.
  - destruct P as (P1 & _ & reason & _ & P3). split; [exact P1|].
    exists reason. congruence.
Qed.

(** ** The constructor *)

(** X27. Waiting for Steam is bounded: the loop of
    [initializeTicketSteamID] runs the callbacks of Steam at most 16
    times; when Steam never answers it runs them exactly 16 times and
    gives up. It touches neither the client nor the socket. *)
Theorem waitTicketResponse_bounded (s : Sys) :
  let r := waitTicketResponse 0 s in
  client (snd r) = client s
  /\ sockLog (world (snd r)) = sockLog (world s)
  /\ (steps (world (snd r)) <= steps (world s) + 16)%nat
  /\ ((forall n, steam_got_response (world s) n = false) ->
      fst r = false /\ steps (world (snd r)) = (steps (world s) + 16)%nat).
Proof.
  cbn zeta.
  destruct (waitTicketResponse_spec 0 s) as (C & L & _).
  split; [exact C|]. split; [exact L|].
  assert (G : forall n tries (s : Sys),
             attemptsLeft 16 tries = n -> (0 < n)%nat ->
             (steps (world (snd (waitTicketResponse tries s)))
              <= steps (world s) + n)%nat
             /\ ((forall i, steam_got_response (world s) i = false) ->
                 fst (waitTicketResponse tries s) = false
                 /\ steps (world (snd (waitTicketResponse tries s)))
                    = (steps (world s) + n)%nat)).
  { clear. induction n as [n IH] using lt_wf_ind; intros tries s Hn Hpos.
    rewrite waitTicketResponse_round.
    unfold got_encrypted_app_ticket_response.
    destruct (steam_got_response (world s) (steps (world s))) eqn:Hg.
    { cbn. split; [lia|]. intros Hall. rewrite Hall in Hg. discriminate. }
    destruct (Z_gt_dec (tries + 1) 15) as [Hgt|Hle].
    - cbn. assert (n = 1%nat) by (unfold attemptsLeft in Hn; lia).
      subst n. split; [lia|]. intros _. split; [reflexivity|lia].
    - destruct (IH (attemptsLeft 16 (tries + 1))) with (tries := tries + 1)
        (s := do_run_callbacks s) as (B & A);
        [unfold attemptsLeft in *; lia | reflexivity
        | unfold attemptsLeft in *; lia |].
      assert (Hs : n = S (attemptsLeft 16 (tries + 1)))
        by (unfold attemptsLeft in *; lia).
      cbn in B. split; [lia|].
      intros Hall. destruct (A Hall) as (A1 & A2).
      split; [exact A1|]. cbn in A2. lia. }
  destruct (G 16%nat 0 s) as (B & A); [reflexivity|lia|].
  split; [exact B|exact A].
Qed.

(** X28. What the constructor can leave behind: the state after
    construction is InitError, Connected or ConnectionError. With a server
    address that is [sf::IpAddress::None] it is InitError, and Steam has
    not been asked. In InitError no connection was attempted: the socket
    was not touched and no event is queued. Otherwise exactly one event is
    queued, [EConnectionSuccess] in Connected and an [EConnectionFailure]
    in ConnectionError. *)
Theorem constructor_outcomes (w : World) :
  let s := HexagonClient_new online w in
  (Config_getServerIp w = IpNone ->
   _state (client s) = InitError /\ steps (world s) = steps w)
  /\ match _state (client s) with
     | InitError =>
         sockLog (world s) = sockLog w /\ _events (client s) = []
     | Connected => _events (client s) = [EConnectionSuccess]
     | ConnectionError =>
         exists reason, _events (client s) = [EConnectionFailure reason]
     | _ => False
     end.
Proof.
  cbn zeta. unfold HexagonClient_new, HexagonClient_body. msimpl.
  destruct (Config_getServerIp w) eqn:Hip; cbn.
  { split; [auto|]. auto. }
  split; [discriminate|].
  match goal with |- context [initializeTicketSteamID ?x] =>
    set (s0 := x) end.
  destruct (initializeTicketSteamID_spec s0) as (b & s1 & E & Hc & Hs).
  assert (Hframe : sockLog (world s1) = sockLog w
                   /\ _events (client s1) = []).
  { revert E. unfold initializeTicketSteamID. msimpl.
    destruct (waitTicketResponse_spec 0 s0) as (C & L & _).
    destruct (waitTicketResponse 0 s0) as [responded s2]. cbn in *.
    destruct responded; cbn;
      [|intros E; injection E as <- <-; rewrite C, L; auto].
    destruct (steam_got_ticket (world s2)); cbn;
      [|intros E; injection E as <- <-; rewrite C, L; auto].
    destruct (steam_ticket_id (world s2)); cbn;
      intros E; injection E as <- <-; cbn; rewrite ?C, L; auto. }
  destruct Hframe as (Hl & He).
  rewrite E. destruct b; cbn.
  - destruct (connect_spec s1) as (b2 & s2 & E2 & P); [exact Hc|].
    rewrite E2. cbn. destruct b2.
    + destruct P as (P1 & _ & P3). rewrite P1, P3, He. reflexivity.
    + destruct P as (P1 & _ & reason & _ & P3). rewrite P1.
      exists reason. rewrite P3, He. reflexivity.
  - auto.
Qed.
End Properties.

(** * The properties at work on the sample instance *)



(** C2, witness: a connected client that has not logged in. *)
Lemma loggedIn_requests_elsewhere_witness :
  _state (client Sample.connected) <> LoggedIn
  /\ trySendReplay Sample.online tt Sample.connected
     = (Returned false, Sample.connected).
Proof.
  assert (H : _state (client Sample.connected) <> LoggedIn)
    by (vm_compute; discriminate).
  split; [exact H|].
  destruct (loggedIn_requests_elsewhere Sample.online Sample.connected
              "level" tt H) as (_ & _ & H3 & _).
  exact H3.
Defined.

(** C3, at the failing input: a logged-in client is disconnected, and the
    login token and the login name are still there. *)
Lemma login_session_survives_disconnect :
  let s := Sample.loggedIn in
  let s' := exec (disconnect Sample.online) s in
  _state (client s) = LoggedIn
  /\ _state (client s') = Disconnected
  /\ _loginToken (client s') = Some 42
  /\ _loginName (client s') = Some "bob".
Proof. vm_compute. repeat split. Qed.

(** C4, witness: a connected client without session keys, to which the
    server sends an encrypted envelope. *)
Lemma encrypted_without_keys_fails_witness :
  _clientRTKeys (client Sample.connectedNoKeys) = None
  /\ sendEncrypted Sample.online (CTSPLogout 7) Sample.connectedNoKeys
     = (Returned false, Sample.connectedNoKeys)
  /\ receiveDataFromServer Sample.online Sample.connectedNoKeys
     = (Returned false,
        exec (recvPacket Sample.online) Sample.connectedNoKeys).
Proof.
  assert (H : _clientRTKeys (client Sample.connectedNoKeys) = None)
    by (vm_compute; reflexivity).
  destruct (encrypted_without_keys_fails Sample.online Sample.connectedNoKeys
              (CTSPLogout 7) H) as [Hsend Hrecv].
  split; [exact H|]. split; [exact Hsend|].
  apply (Hrecv (exec (recvPacket Sample.online) Sample.connectedNoKeys)
           [] [Byte.x11]); vm_compute; reflexivity.
Defined.

(** C5, counterexample to the claim as stated: on a logged-in client whose
    socket has died, the send primitive gets Error from the socket and
    returns [false], and the client is still LoggedIn on a socket it takes
    for connected: nothing was disconnected. *)
Lemma sendPacket_fatal_does_not_disconnect :
  let s := Sample.loggedInDead in
  let s' := exec sendPacket s in
  sockLog (world s')
  = (sockLog (world s) ++ [OpSend (_packetBuffer (client s)) Socket.Error])%list
  /\ result sendPacket s = Returned false
  /\ _state (client s') = LoggedIn
  /\ _socketConnected (client s') = true
  /\ ~ (_state (client s') = Disconnected
        /\ _socketConnected (client s') = false).
Proof.
  vm_compute. repeat split. intros [H _]. discriminate H.
Qed.

(** The receive primitive on the same kind of failure: the socket answers
    Partial and then Disconnected, and the client ends up disconnected. *)
Example recvPacket_fatal_disconnects :
  let w :=
    mkWorld (fun _ => Socket.Done) (fun _ _ => Socket.Done)
      (fun n => if (n <? 7)%nat then (Socket.Partial, [])
                else (Socket.Disconnected, []))
      (fun _ => 0) (fun _ => true) true (Some 7)
      (IpV4 2130706433) 50505 (mkPSKeys [Byte.x01] [Byte.x02]) 0 [] [] in
  let s := HexagonClient_new Sample.online w in
  let s' := exec (recvPacket Sample.online) s in
  _state (client s) = Connected
  /\ result (recvPacket Sample.online) s = Returned false
  /\ _state (client s') = Disconnected
  /\ _socketConnected (client s') = false
  /\ sockLog (world s')
     = (sockLog (world s)
        ++ [OpReceive Socket.Partial []; OpReceive Socket.Disconnected [];
            OpSetBlocking true; OpSend [Byte.x01] Socket.Done;
            OpDisconnect])%list.
Proof. vm_compute. repeat split. Qed.

(** The same on the sample instance: Steam never answers, and the
    constructor gives up. *)
Lemma InitError_left_only_by_connect_witness :
  _state (client (HexagonClient_new Sample.online Sample.world_no_ticket))
  = InitError
  /\ _state
       (client
          (calls Sample.online
             [Call_update; Call_tryLogin "bob" "abc"; Call_disconnect;
              Call_trySendStartedGame "level"]
             (HexagonClient_new Sample.online Sample.world_no_ticket)))
     = Disconnected.
Proof.
  assert (H : _state (client (HexagonClient_new Sample.online
                                Sample.world_no_ticket)) = InitError)
    by (vm_compute; reflexivity).
  split; [exact H|].
  destruct (InitError_left_only_by_connect Sample.online
              Sample.world_no_ticket H) as [Hcalls _].
  destruct (Hcalls [Call_update; Call_tryLogin "bob" "abc"; Call_disconnect;
                    Call_trySendStartedGame "level"] eq_refl)
    as ([Hs|Hs] & _).
  - exfalso. revert Hs. vm_compute. discriminate.
  - exact Hs.
Defined.

(** C6, at the failing input. The client constructed in a world whose
    Steam never answers is in InitError, without a Steam ID; one call to
    [connect] takes it through Connecting to Connected, still without a
    Steam ID, which the requests made in Connected assert to be there. So
    it is not true that no sequence of public calls reaches Connecting,
    Connected or LoggedIn from InitError. *)
Lemma InitError_then_connect :
  let s := Sample.initFailed in
  let s' := calls Sample.online [Call_connect] s in
  _state (client s) = InitError
  /\ _ticketSteamID (client s) = None
  /\ _state (client s') = Connected
  /\ _ticketSteamID (client s') = None
  /\ stateLog (world s')
     = [Disconnected; InitError; Connecting; Connected]
  /\ ~ (forall l : list (ApiCall unit),
          let s'' := calls Sample.online l s in
          _state (client s'') <> Connecting
          /\ _state (client s'') <> Connected
          /\ _state (client s'') <> LoggedIn).
Proof.
  cbn zeta. split; [vm_compute; reflexivity|].
  split; [vm_compute; reflexivity|].
  split; [vm_compute; reflexivity|]. split; [vm_compute; reflexivity|].
  split; [vm_compute; reflexivity|].
  intros H. destruct (H [Call_connect]) as (_ & H2 & _).
  apply H2. vm_compute. reflexivity.
Qed.

(** C7, witness: a client that has not connected yet. *)
Lemma disconnect_when_Disconnected_witness :
  _state (client Sample.fresh) = Disconnected
  /\ exists s',
       disconnect Sample.online Sample.fresh = (Returned tt, s')
       /\ _state (client s') = Disconnected
       /\ sockLog (world s')
          = (sockLog (world Sample.fresh)
             ++ [OpSetBlocking true; OpDisconnect])%list
       /\ sentPackets s' = sentPackets Sample.fresh
       /\ _events (client s') = _events (client Sample.fresh).
Proof.
  split; [reflexivity|].
  apply (disconnect_when_Disconnected Sample.online Sample.fresh).
  reflexivity.
Defined.

(** C8, witness: the empty name and the password abc, on a connected
    client. *)
Lemma tryRegister_bad_credentials_witness :
  _socketConnected (client Sample.connected) = true
  /\ _state (client Sample.connected) = Connected
  /\ tryRegister Sample.online EmptyString "abc" Sample.connected
     = (Returned false,
        mkSys
          (set_events
             (_events (client Sample.connected)
              ++ [ERegistrationFailure
                    "Name or password fields too long or empty"])
             (client Sample.connected))
          (world Sample.connected)).
Proof.
  assert (Hc : _socketConnected (client Sample.connected) = true)
    by (vm_compute; reflexivity).
  assert (Hs : _state (client Sample.connected) = Connected)
    by (vm_compute; reflexivity).
  destruct (tryRegister_bad_credentials Sample.online Sample.connected
              (name := EmptyString) (password := "abc") Hc Hs
              (or_introl eq_refl)) as [E _].
  split; [exact Hc|]. split; [exact Hs|exact E].
Defined.

(** C9, witness: a logged-in client whose socket has died; the logout is
    not sent, and the client is logged out all the same. *)
Lemma tryLogoutFromServer_logs_out_first_witness :
  let s := Sample.loggedInDead in
  let s' := exec (tryLogoutFromServer Sample.online) s in
  _socketConnected (client s) = true
  /\ _state (client s) = LoggedIn
  /\ result (tryLogoutFromServer Sample.online) s = Returned false
  /\ _state (client s') = Connected
  /\ _loginToken (client s') = None
  /\ _loginName (client s') = None.
Proof.
  cbn zeta.
  assert (Hc : _socketConnected (client Sample.loggedInDead) = true)
    by (vm_compute; reflexivity).
  assert (Hs : _state (client Sample.loggedInDead) = LoggedIn)
    by (vm_compute; reflexivity).
  destruct (tryLogoutFromServer_logs_out_first Sample.online
              Sample.loggedInDead Hc Hs) as (H1 & H2 & H3 & _).
  split; [exact Hc|]. split; [exact Hs|].
  split; [vm_compute; reflexivity|].
  split; [exact H1|]. split; [exact H2|exact H3].
Defined.

(** C10, witness: a client whose construction failed. *)
Lemma update_when_not_connected_witness :
  _socketConnected (client Sample.initFailed) = false
  /\ update Sample.online Sample.initFailed
     = (Returned tt, Sample.initFailed).
Proof.
  split; [vm_compute; reflexivity|].
  apply (update_when_not_connected Sample.online Sample.initFailed).
  vm_compute. reflexivity.
Defined.

(** * More of the client, on the sample instance *)

(** X1, witness: a logged-in client. *)
Lemma connected_requests_elsewhere_witness :
  _state (client Sample.loggedIn) <> Connected
  /\ tryLogin Sample.online "bob" "abc" Sample.loggedIn
     = (Returned false, Sample.loggedIn).
Proof.
  assert (H : _state (client Sample.loggedIn) <> Connected)
    by (vm_compute; discriminate).
  split; [exact H|].
  destruct (connected_requests_elsewhere Sample.online Sample.loggedIn
              "bob" "abc" H) as (_ & H2 & _).
  exact H2.
Defined.

(** X2, witness: a name of 33 characters. *)
Lemma tryLogin_bad_credentials_witness :
  _socketConnected (client Sample.connected) = true
  /\ _state (client Sample.connected) = Connected
  /\ tryLogin Sample.online "123456789012345678901234567890123" "abc"
       Sample.connected
     = (Returned false,
        mkSys
          (set_events
             (_events (client Sample.connected)
              ++ [ELoginFailure "Name or password fields too long or empty"])
             (client Sample.connected))
          (world Sample.connected)).
Proof.
  assert (Hc : _socketConnected (client Sample.connected) = true)
    by (vm_compute; reflexivity).
  assert (Hs : _state (client Sample.connected) = Connected)
    by (vm_compute; reflexivity).
  split; [exact Hc|]. split; [exact Hs|].
  apply (tryLogin_bad_credentials Sample.online Sample.connected
           (name := "123456789012345678901234567890123") (password := "abc")
           Hc Hs).
  right. left. vm_compute. lia.
Defined.

(** X3, witness: a name of 32 characters. *)
Lemma good_credentials_are_sent_witness :
  _socketConnected (client Sample.connected) = true
  /\ _state (client Sample.connected) = Connected
  /\ _ticketSteamID (client Sample.connected) = Some 7
  /\ tryRegister Sample.online "12345678901234567890123456789012" "abc"
       Sample.connected
     = sendEncrypted Sample.online
         (CTSPRegister 7 "12345678901234567890123456789012" "saltabc")
         Sample.connected.
Proof.
  assert (Hc : _socketConnected (client Sample.connected) = true)
    by (vm_compute; reflexivity).
  assert (Hs : _state (client Sample.connected) = Connected)
    by (vm_compute; reflexivity).
  assert (Ht : _ticketSteamID (client Sample.connected) = Some 7)
    by (vm_compute; reflexivity).
  split; [exact Hc|]. split; [exact Hs|]. split; [exact Ht|].
  assert (Hn : (0 < String.length "12345678901234567890123456789012" <= 32)%nat)
    by (vm_compute; lia).
  assert (Hp : (0 < String.length "abc")%nat) by (vm_compute; lia).
  destruct (good_credentials_are_sent Sample.online Sample.connected
              "12345678901234567890123456789012" "abc" Hc Hs Ht Hn Hp)
    as [H _].
  exact H.
Defined.

(** X4, witness: a client that was connected after its construction had
    failed for want of a Steam ticket. *)
Lemma requests_throw_without_ticket_witness :
  _socketConnected (client Sample.connectedNoTicket) = true
  /\ _state (client Sample.connectedNoTicket) = Connected
  /\ _ticketSteamID (client Sample.connectedNoTicket) = None
  /\ tryRegister Sample.online "bob" "abc" Sample.connectedNoTicket
     = (Thrown bad_optional_access, Sample.connectedNoTicket).
Proof.
  assert (Hc : _socketConnected (client Sample.connectedNoTicket) = true)
    by (vm_compute; reflexivity).
  assert (Hs : _state (client Sample.connectedNoTicket) = Connected)
    by (vm_compute; reflexivity).
  assert (Ht : _ticketSteamID (client Sample.connectedNoTicket) = None)
    by (vm_compute; reflexivity).
  split; [exact Hc|]. split; [exact Hs|]. split; [exact Ht|].
  assert (Hn : (0 < String.length "bob" <= 32)%nat) by (vm_compute; lia).
  assert (Hp : (0 < String.length "abc")%nat) by (vm_compute; lia).
  destruct (requests_throw_without_ticket Sample.online
              Sample.connectedNoTicket "bob" "abc" Hc Hs Ht Hn Hp)
    as [H _].
  exact H.
Defined.

(** X5, witness: a connected client. *)
Lemma connect_when_socket_connected_witness :
  _socketConnected (client Sample.connected) = true
  /\ connect Sample.online Sample.connected
     = (Returned false,
        mkSys (set_state Connecting (client Sample.connected))
          (note_state Connecting (world Sample.connected))).
Proof.
  assert (Hc : _socketConnected (client Sample.connected) = true)
    by (vm_compute; reflexivity).
  split; [exact Hc|].
  exact (connect_when_socket_connected Sample.online Sample.connected Hc).
Defined.

(** X9, witness: a connected client with session keys. *)
Lemma sendEncrypted_sends_sealed_witness :
  _socketConnected (client Sample.connected) = true
  /\ _clientRTKeys (client Sample.connected)
     = Some (mkRTKeys [Byte.x2a] [Byte.x01])
  /\ exists b s' statuses,
       sendEncrypted Sample.online (CTSPLogin 7 "bob" "saltabc")
         Sample.connected
       = (Returned b, s')
       /\ sockOpsSince Sample.connected s'
            (map (OpSend [Byte.xee; Byte.x04; Byte.x01]) statuses).
Proof.
  assert (Hc : _socketConnected (client Sample.connected) = true)
    by (vm_compute; reflexivity).
  assert (Hk : _clientRTKeys (client Sample.connected)
               = Some (mkRTKeys [Byte.x2a] [Byte.x01]))
    by (vm_compute; reflexivity).
  split; [exact Hc|]. split; [exact Hk|].
  destruct (sendEncrypted_sends_sealed Sample.online Sample.connected
              (CTSPLogin 7 "bob" "saltabc") Hc Hk)
    as (b & s' & statuses & E & O & _).
  exists b, s', statuses. split; [exact E|exact O].
Defined.

(** X10, witness: a socket that only ever answers Partial. *)
Lemma retries_exhausted_witness :
  (exists s',
      sendPacket Sample.stalled = (Returned false, s')
      /\ client s' = client Sample.stalled
      /\ sockOpsSince Sample.stalled s'
           (repeat (OpSend [] Socket.Partial) 6))
  /\ exists s' packets,
       recvPacket Sample.online Sample.stalled = (Returned false, s')
       /\ sendFrame Sample.stalled s'
       /\ client s'
          = set_packetBuffer (_packetBuffer (client s'))
              (client Sample.stalled)
       /\ sockOpsSince Sample.stalled s'
            (map (OpReceive Socket.Partial) packets)
       /\ List.length packets = 6%nat.
Proof.
  destruct (retries_exhausted Sample.online Sample.stalled) as [Hs Hr].
  split.
  - apply Hs. intros n p. reflexivity.
  - apply Hr. intros n. reflexivity.
Defined.

(** X14, witness: the tick in which the kick arrives. *)
Lemma events_only_appended_witness :
  isPollEvent (Call_update (replay_file := unit)) = false
  /\ exists new,
       _events (client (exec (call Sample.online Call_update)
                          Sample.loggedInKicked))
       = (_events (client Sample.loggedInKicked) ++ new)%list.
Proof.
  split; [reflexivity|].
  exact (events_only_appended Sample.online Call_update
           Sample.loggedInKicked eq_refl).
Defined.

(** X16, witness: a world in which the construction succeeds. *)
Lemma constructed_requests_never_throw_witness :
  _state (client (HexagonClient_new Sample.online Sample.world_ok))
  <> InitError
  /\ _ticketSteamID
       (client
          (calls Sample.online [Call_update; Call_disconnect; Call_connect]
             (HexagonClient_new Sample.online Sample.world_ok)))
     <> None.
Proof.
  assert (H : _state (client (HexagonClient_new Sample.online
                                Sample.world_ok)) <> InitError)
    by (vm_compute; discriminate).
  split; [exact H|].
  destruct (constructed_requests_never_throw Sample.online Sample.world_ok
              [Call_update; Call_disconnect; Call_connect] "bob" "abc" H)
    as (Ht & _).
  exact Ht.
Defined.

(** X17, witness: a connected client whose server is silent. *)
Lemma update_nothing_to_read_witness :
  _socketConnected (client Sample.quiet) = true
  /\ update Sample.online Sample.quiet
     = (Returned tt,
        mkSys (set_packetBuffer [] (client Sample.quiet))
          (interact [OpReceive Socket.NotReady []]
             (interact [] (world Sample.quiet)))).
Proof.
  assert (Hc : _socketConnected (client Sample.quiet) = true)
    by (vm_compute; reflexivity).
  split; [exact Hc|].
  apply (update_nothing_to_read Sample.online Sample.quiet Hc).
  - vm_compute. discriminate.
  - vm_compute. reflexivity.
Defined.

(** X18, witness: 50 seconds after the connection was made. *)
Lemma update_sends_due_heartbeat_first_witness :
  _socketConnected (client Sample.heartbeatDue) = true
  /\ exists s' st ops,
       update Sample.online Sample.heartbeatDue = (Returned tt, s')
       /\ sockOpsSince Sample.heartbeatDue s'
            (OpSend [Byte.x00] st :: ops).
Proof.
  assert (Hc : _socketConnected (client Sample.heartbeatDue) = true)
    by (vm_compute; reflexivity).
  split; [exact Hc|].
  apply (update_sends_due_heartbeat_first Sample.online Sample.heartbeatDue
           Hc).
  vm_compute. reflexivity.
Defined.

(** X19, witness: the same, on a socket that has just died. *)
Lemma failed_heartbeat_disconnects_witness :
  _socketConnected (client Sample.heartbeatDueDead) = true
  /\ exists s' ops,
       update Sample.online Sample.heartbeatDueDead = (Returned tt, s')
       /\ _state (client s') = Disconnected
       /\ _socketConnected (client s') = false
       /\ sockOpsSince Sample.heartbeatDueDead s'
            (OpSend [Byte.x00] Socket.Error :: ops)
       /\ forallb (fun o => negb (isReceive o)) ops = true.
Proof.
  assert (Hc : _socketConnected (client Sample.heartbeatDueDead) = true)
    by (vm_compute; reflexivity).
  split; [exact Hc|].
  apply (failed_heartbeat_disconnects Sample.online Sample.heartbeatDueDead
           Hc).
  - vm_compute. reflexivity.
  - vm_compute. discriminate.
  - vm_compute. discriminate.
Defined.

(** X20, witness: a logged-in client that the server kicks. *)
Lemma kick_disconnects_witness :
  _socketConnected (client Sample.loggedInKicked) = true
  /\ exists s',
       receiveDataFromServer Sample.online Sample.loggedInKicked
       = (Returned true, s')
       /\ _state (client s') = Disconnected
       /\ _socketConnected (client s') = false
       /\ _events (client s')
          = (_events (client Sample.loggedInKicked) ++ [EKicked])%list.
Proof.
  assert (Hc : _socketConnected (client Sample.loggedInKicked) = true)
    by (vm_compute; reflexivity).
  split; [exact Hc|].
  apply (kick_disconnects Sample.online Sample.loggedInKicked
           (s1 := exec (recvPacket Sample.online) Sample.loggedInKicked) Hc).
  - vm_compute. reflexivity.
  - vm_compute. reflexivity.
Defined.

(** X22, witness: a replay submitted after the disconnection. *)
Lemma after_disconnect_nothing_happens_witness :
  isRequest (Call_trySendReplay tt) = true
  /\ call Sample.online (Call_trySendReplay tt)
       (exec (disconnect Sample.online) Sample.loggedIn)
     = (Returned tt, exec (disconnect Sample.online) Sample.loggedIn).
Proof.
  split; [reflexivity|].
  exact (@after_disconnect_nothing_happens unit unit Sample.online
           (Call_trySendReplay tt) Sample.loggedIn (or_introl eq_refl)).
Defined.

(** X23, witness: a client whose construction failed. *)
Lemma disconnect_off_network_sends_nothing_witness :
  _state (client Sample.initFailed) <> Connected
  /\ _state (client Sample.initFailed) <> LoggedIn
  /\ disconnect Sample.online Sample.initFailed
     = (Returned tt,
        mkSys
          (set_state Disconnected
             (set_socketConnected false (client Sample.initFailed)))
          (note_state Disconnected
             (interact [OpDisconnect]
                (interact [OpSetBlocking true] (world Sample.initFailed))))).
Proof.
  assert (H1 : _state (client Sample.initFailed) <> Connected)
    by (vm_compute; discriminate).
  assert (H2 : _state (client Sample.initFailed) <> LoggedIn)
    by (vm_compute; discriminate).
  split; [exact H1|]. split; [exact H2|].
  exact (@disconnect_off_network_sends_nothing unit unit Sample.online
           Sample.initFailed H1 H2).
Defined.

(** X24, witness: a connected client. *)
Lemma disconnect_sends_notice_witness :
  _socketConnected (client Sample.connected) = true
  /\ _state (client Sample.connected) = Connected
  /\ exists s' st statuses,
       disconnect Sample.online Sample.connected = (Returned tt, s')
       /\ _state (client s') = Disconnected
       /\ _socketConnected (client s') = false
       /\ sockOpsSince Sample.connected s'
            (OpSetBlocking true
             :: map (OpSend [Byte.x01]) (st :: statuses) ++ [OpDisconnect]).
Proof.
  assert (Hc : _socketConnected (client Sample.connected) = true)
    by (vm_compute; reflexivity).
  assert (Hs : _state (client Sample.connected) = Connected)
    by (vm_compute; reflexivity).
  split; [exact Hc|]. split; [exact Hs|].
  exact (disconnect_sends_notice Sample.online Sample.connected Hc Hs).
Defined.


(** The difference of the two counts of nanoseconds is a signed 64-bit
    integer: with the last heartbeat at 5e18 and the clock at -5e18 the
    exact difference, -1e19, is negative, but the wrapped one is about
    8.4e18, more than 45 seconds, and [update] sends a heartbeat. *)
Example heartbeat_difference_wraps :
  let s := Sample.clockJumpedBack in
  let s' := exec (update Sample.online) s in
  _lastHeartbeatTime (client s) = 5000000000000000000
  /\ clock_now (world s) (steps (world s)) = -5000000000000000000
  /\ int64_wrap (-5000000000000000000 - 5000000000000000000)
     = 8446744073709551616
  /\ sockOpsSince s s'
       [OpSend [Byte.x00] Socket.Done; OpReceive Socket.NotReady []].
Proof. vm_compute. repeat split. Qed.
